(** * Review-similarity service (app.py): model and verified properties

    The service compares the embedding of a hotel's canonical text with the
    embeddings of review texts (cosine similarity) and flags a review when
    the similarity is below a threshold.  This development embeds app.py:

    - numbers are IEEE binary64 floats (Rocq's primitive floats), as numpy
      and Python use them;
    - HOTEL_DATA, REVIEWS_DATASET and ANOMALOUS_REVIEWS are dictionaries
      (stdpp's gmap with string keys);
    - [functools.lru_cache(maxsize=100)] is an association list ordered by
      recency of use, most recent first;
    - the embedding provider is an arbitrary state transformer on an
      abstract world, so that it may fail and may answer differently each
      time; every provider call is logged;
    - Python exceptions are an explicit error result;
    - a route is a function from the request and the state to the answer
      and the state; [jsonify] is the function that encodes the answer, and
      it raises on what it cannot encode. *)

From Stdlib Require Import Floats.
From stdpp Require Import gmap strings list fin_maps.

#[local] Set Warnings "-clear-no-such-hyp".

Open Scope string_scope.

(** ** Exceptions and results *)

(** The exceptions the modelled code can raise.  [ValueError] is what
    [np.dot] raises on vectors of different shapes; [ProviderError] stands
    for whatever [requests.post], [raise_for_status] or the response lookup
    raise, with the message of the exception.  [TypeError] is what
    [jsonify] raises on a value its encoder does not know (a numpy bool)
    and what hashing a list or a dict raises; [AttributeError] is what
    [data.get] raises when [data] is not a dict; [HTTPException] stands for
    what [request.get_json()] raises (werkzeug's UnsupportedMediaType, 415,
    without a JSON content type; BadRequest, 400, on a malformed body). *)
Inductive exn : Type :=
  | ValueError
  | ProviderError (msg : string)
  | TypeError
  | AttributeError
  | HTTPException (code : Z).

Inductive result (A : Type) : Type :=
  | Ok (a : A)
  | Raise (e : exn).
Arguments Ok {A} a.
Arguments Raise {A} e.

Definition is_ok {A} (r : result A) : bool :=
  match r with Ok _ => true | Raise _ => false end.

(** ** Similarity engine *)

Module Similarity.

Abbreviation Vec := (list float).

(** The accumulation performed by [np.dot] on two 1-D arrays of equal
    length: the sum of the element-wise products.  numpy hands the sum to
    its BLAS, which may add in another order and may fuse a product with
    an addition; the model adds from left to right and rounds after each
    operation, so the last bits of a sum may differ from numpy's.  What is
    proved of the sum is its symmetry, which rests on the commutativity of
    the product alone; no statement gives the rounded value of a sum that
    is not exact. *)
Definition dot_sum (vec1 vec2 : Vec) : float :=
  fold_left (fun acc p => (acc + fst p * snd p)%float) (combine vec1 vec2) 0%float.

(** [np.dot(vec1, vec2)]: a [ValueError] (shapes not aligned) when the
    lengths differ. *)
Definition np_dot (vec1 vec2 : Vec) : result float :=
  if Nat.eqb (length vec1) (length vec2)
  then Ok (dot_sum vec1 vec2)
  else Raise ValueError.

(** [np.linalg.norm(vec)] for a 1-D real array: [sqrt(vec.dot(vec))]. *)
Definition np_linalg_norm (vec : Vec) : float :=
  PrimFloat.sqrt (dot_sum vec vec).

(** [cosine_similarity(vec1, vec2)]: the dot product is evaluated first,
    then the two norms, their product and the quotient.  Float division
    never raises in numpy: 0/0 is NaN and x/0 is an infinity. *)
Definition cosine_similarity (vec1 vec2 : Vec) : result float :=
  match np_dot vec1 vec2 with
  | Raise e => Raise e
  | Ok d => Ok (d / (np_linalg_norm vec1 * np_linalg_norm vec2))%float
  end.

End Similarity.

(** ** Data model *)

(** An entry of HOTEL_DATA. *)
Record Hotel : Type := mkHotel {
  name : string;
  description : string;
  features : list string
}.

(** [sep.join(l)] *)
Fixpoint join (sep : string) (l : list string) : string :=
  match l with
  | [] => ""
  | [x] => x
  | x :: rest => x +:+ sep +:+ join sep rest
  end.

(** One element of [normal_results] / [anomalous_results]. *)
Record ReviewResult : Type := mkReviewResult {
  review : string;
  similarity : float;
  needs_check : bool
}.

(** The dictionary returned by [analyze_hotel_reviews]. *)
Record Report : Type := mkReport {
  hotel : Hotel;
  hotel_text : string;
  normal_reviews : list ReviewResult;
  anomalous_reviews : list ReviewResult;
  threshold : float
}.

(** The dictionary [custom_review] passes to [jsonify]. *)
Record CustomResult : Type := mkCustomResult {
  c_hotel : Hotel;
  c_review : string;
  c_similarity : float;
  c_needs_check : bool;
  c_threshold : float
}.

(** What a route returns: the value [jsonify] encoded and the HTTP status.
    The body of a 500 response is [{"error": str(e)}]; the model keeps the
    exception. *)
Inductive response : Type :=
  | Report200 (r : Report)
  | Custom200 (r : CustomResult)
  | Error400 (msg : string)
  | Error404 (msg : string)
  | Error500 (e : exn).

(** Python's [not v] on a value obtained with [data.get(key)], where [data]
    is the JSON object of the request: [None] when the key is absent,
    otherwise the string found there. *)
Definition py_not (v : option string) : bool :=
  match v with
  | None => true
  | Some s => bool_decide (s = "")
  end.

(** [jsonify(result)] on the dictionary of the batch analysis.  The flag
    [needs_check] of an entry is the outcome of comparing a numpy float, a
    numpy bool, and only [similarity] is converted ([float(similarity)]):
    the encoder raises [TypeError] as soon as the report has an entry. *)
Definition jsonify_report (r : Report) : result Report :=
  match (normal_reviews r ++ anomalous_reviews r)%list with
  | [] => Ok r
  | _ :: _ => Raise TypeError
  end.

(** [jsonify({...})] on the dictionary of [custom_review]: its
    [needs_check] is a numpy bool, which the encoder refuses. *)
Definition jsonify_custom (r : CustomResult) : result CustomResult :=
  Raise TypeError.

(** ** The service *)

Definition maxsize : nat := 100.

Section Service.

Context {World : Type}.

(** The HTTP exchange with the embedding provider inside [get_embedding]:
    the vector found at [data[0].embedding], or the exception raised. *)
Variable provider : string -> World -> result Similarity.Vec * World.

Variable HOTEL_DATA : gmap string Hotel.
Variable REVIEWS_DATASET : gmap string (list string).
Variable ANOMALOUS_REVIEWS : gmap string (list string).
Variable SIMILARITY_THRESHOLD : float.

(** Process state: the store of [lru_cache] (most recently used first),
    the outside world, and the log of provider calls (newest first). *)
Record State : Type := mkState {
  cache : list (string * Similarity.Vec);
  world : World;
  calls : list string
}.

Definition init (w : World) : State :=
  {| cache := []; world := w; calls := [] |}.

(** [get_embedding(text)]: one provider call; the [except] clause logs and
    re-raises. *)
Definition get_embedding (text : string) (st : State)
  : result Similarity.Vec * State :=
  let (r, w') := provider text (world st) in
  (r, {| cache := cache st; world := w'; calls := text :: calls st |}).

Fixpoint cache_get (key : string) (c : list (string * Similarity.Vec))
  : option Similarity.Vec :=
  match c with
  | [] => None
  | (k, v) :: c' => if decide (k = key) then Some v else cache_get key c'
  end.

Definition cache_remove (key : string) (c : list (string * Similarity.Vec))
  : list (string * Similarity.Vec) :=
  filter (fun p => p.1 <> key) c.

(** What stays in the store when a new link comes in: everything, or, when
    the store is full, everything but the oldest link. *)
Definition kept_on_insert (c : list (string * Similarity.Vec))
  : list (string * Similarity.Vec) :=
  if Nat.leb maxsize (length c) then removelast c else c.

(** [@lru_cache(maxsize=100)] around [get_embedding].  A hit moves the link
    to the front and returns the stored result.  A miss calls the function;
    an exception leaves the store as it is; a result is stored at the front,
    the oldest link being dropped when the store is full. *)
Definition get_cached_embedding (text : string) (st : State)
  : result Similarity.Vec * State :=
  match cache_get text (cache st) with
  | Some v =>
      (Ok v, {| cache := (text, v) :: cache_remove text (cache st);
                world := world st; calls := calls st |})
  | None =>
      let (r, st') := get_embedding text st in
      match r with
      | Raise e => (Raise e, st')
      | Ok v =>
          (Ok v, {| cache := (text, v) :: kept_on_insert (cache st');
                    world := world st'; calls := calls st' |})
      end
  end.

(** The f-string of line 122. *)
Definition analyze_hotel_text (h : Hotel) : string :=
  name h +:+ ". " +:+ description h +:+ " Особенности: "
    +:+ join ", " (features h).

(** The f-string of line 204. *)
Definition custom_hotel_text (h : Hotel) : string :=
  name h +:+ ". " +:+ description h +:+ " Особенности: "
    +:+ join ", " (features h).

(** The body shared by the two [for review in ...] loops. *)
Fixpoint analyze_reviews (hotel_embedding : Similarity.Vec)
    (reviews : list string) (st : State)
  : result (list ReviewResult) * State :=
  match reviews with
  | [] => (Ok [], st)
  | rv :: rest =>
      match get_cached_embedding rv st with
      | (Raise e, st1) => (Raise e, st1)
      | (Ok review_embedding, st1) =>
          match Similarity.cosine_similarity hotel_embedding review_embedding with
          | Raise e => (Raise e, st1)
          | Ok sim =>
              match analyze_reviews hotel_embedding rest st1 with
              | (Raise e, st2) => (Raise e, st2)
              | (Ok results, st2) =>
                  (Ok ({| review := rv; similarity := sim;
                          needs_check := (sim <? SIMILARITY_THRESHOLD)%float |}
                       :: results), st2)
              end
          end
      end
  end.

(** [analyze_hotel_reviews(hotel_id)]: [None] for an unknown id. *)
Definition analyze_hotel_reviews (hotel_id : string) (st : State)
  : result (option Report) * State :=
  match HOTEL_DATA !! hotel_id with
  | None => (Ok None, st)
  | Some h =>
      let text := analyze_hotel_text h in
      match get_cached_embedding text st with
      | (Raise e, st1) => (Raise e, st1)
      | (Ok hotel_embedding, st1) =>
          match analyze_reviews hotel_embedding
                  (default [] (REVIEWS_DATASET !! hotel_id)) st1 with
          | (Raise e, st2) => (Raise e, st2)
          | (Ok normal_results, st2) =>
              match analyze_reviews hotel_embedding
                      (default [] (ANOMALOUS_REVIEWS !! hotel_id)) st2 with
              | (Raise e, st3) => (Raise e, st3)
              | (Ok anomalous_results, st3) =>
                  (Ok (Some {| hotel := h; hotel_text := text;
                               normal_reviews := normal_results;
                               anomalous_reviews := anomalous_results;
                               threshold := SIMILARITY_THRESHOLD |}), st3)
              end
          end
      end
  end.

(** Route [/api/analyze/<hotel_id>]; [jsonify(result)] is inside the
    [try], so what it raises is answered 500 as well. *)
Definition analyze (hotel_id : string) (st : State) : response * State :=
  match analyze_hotel_reviews hotel_id st with
  | (Raise e, st') => (Error500 e, st')
  | (Ok None, st') => (Error404 "Hotel not found", st')
  | (Ok (Some r), st') =>
      match jsonify_report r with
      | Ok body => (Report200 body, st')
      | Raise e => (Error500 e, st')
      end
  end.

(** Lines 203 to 219 of [custom_review], for a hotel that was found and a
    review text that is a string: the two embeddings, the similarity and
    the dictionary handed to [jsonify]. *)
Definition custom_review_payload (h : Hotel) (review_text : string) (st : State)
  : result CustomResult * State :=
  let text := custom_hotel_text h in
  match get_cached_embedding text st with
  | (Raise e, st1) => (Raise e, st1)
  | (Ok hotel_embedding, st1) =>
      match get_cached_embedding review_text st1 with
      | (Raise e, st2) => (Raise e, st2)
      | (Ok review_embedding, st2) =>
          match Similarity.cosine_similarity hotel_embedding review_embedding with
          | Raise e => (Raise e, st2)
          | Ok sim =>
              (Ok {| c_hotel := h; c_review := review_text;
                     c_similarity := sim;
                     c_needs_check := (sim <? SIMILARITY_THRESHOLD)%float;
                     c_threshold := SIMILARITY_THRESHOLD |}, st2)
          end
      end
  end.

(** Lines 203 to 222: the answer for that dictionary, or the 500 of the
    [except] clause for what was raised on the way, [jsonify] included. *)
Definition custom_review_respond (h : Hotel) (review_text : string) (st : State)
  : response * State :=
  match custom_review_payload h review_text st with
  | (Raise e, st') => (Error500 e, st')
  | (Ok payload, st') =>
      match jsonify_custom payload with
      | Ok body => (Custom200 body, st')
      | Raise e => (Error500 e, st')
      end
  end.

(** Route [/api/custom_review] from line 197 on, for a request whose body
    is a JSON object with strings (or nothing) under the two keys; the
    arguments are [data.get('hotel_id')] and [data.get('review_text')].
    [custom_review_route] below is the whole route, on any request. *)
Definition custom_review (hotel_id review_text : option string) (st : State)
  : response * State :=
  if py_not hotel_id || py_not review_text
  then (Error400 "hotel_id and review_text are required", st)
  else
    let hotel_id := default "" hotel_id in
    let review_text := default "" review_text in
    match HOTEL_DATA !! hotel_id with
    | None => (Error404 "Hotel not found", st)
    | Some h => custom_review_respond h review_text st
    end.

End Service.

(** ** Vocabulary of the properties *)

(** The template as the specification words it, with the label "Features". *)
Definition spec_template_text (h : Hotel) : string :=
  name h +:+ ". " +:+ description h +:+ " Features: "
    +:+ join ", " (features h).

(** The decision attached to a similarity: the flag is raised exactly below
    the threshold, and not at the threshold, be it equal as a number
    ([==]) or the very same float. *)
Definition flag_agrees (sim thr : float) (flag : bool) : Prop :=
  (flag = true <-> (sim <? thr)%float = true) /\
  ((sim =? thr)%float = true -> flag = false) /\
  (sim = thr -> flag = false).

(** The distinct elements of a history given newest first, each at the
    place of its most recent occurrence. *)
Fixpoint recency (h : list string) : list string :=
  match h with
  | [] => []
  | text :: h' => text :: filter (fun k => k <> text) (recency h')
  end.

(** The texts of a trace that were served (hit, or stored after a miss),
    newest first, in front of an earlier history. *)
Fixpoint served_acc (tr : list (string * result Similarity.Vec))
    (h : list string) : list string :=
  match tr with
  | [] => h
  | (text, r) :: tr' => served_acc tr' (if is_ok r then text :: h else h)
  end.

Definition served (tr : list (string * result Similarity.Vec)) : list string :=
  served_acc tr [].

Section Runs.

Context {World : Type}.
Variable provider : string -> World -> result Similarity.Vec * World.

(** Serving a sequence of requests: the trace of requests with their
    outcomes, oldest first, and the final state. *)
Fixpoint serve (reqs : list string) (st : State)
  : list (string * result Similarity.Vec) * State :=
  match reqs with
  | [] => ([], st)
  | text :: reqs' =>
      let (r, st1) := get_cached_embedding provider text st in
      let (tr, st2) := serve reqs' st1 in
      ((text, r) :: tr, st2)
  end.

(** The store lists, in order, the most recently served texts. *)
Definition lru_of (h : list string) (st : @State World) : Prop :=
  (cache st).*1 = take maxsize (recency h).

(** The provider always answers, with vectors of dimension [d]. *)
Definition provider_total (d : nat) : Prop :=
  forall text w, exists v, (provider text w).1 = Ok v /\ length v = d.

(** Every stored vector has dimension [d]. *)
Definition cache_dim (d : nat) (st : @State World) : Prop :=
  Forall (fun p => length p.2 = d) (cache st).

End Runs.
(** ** The sample data of app.py *)

Module Sample.

Definition hotel_1 : Hotel :=
  {| name := "Гранд Отель Москва";
     description :=
       "Роскошный пятизвездочный отель в центре Москвы с видом на Кремль. Предлагает просторные номера с премиальной мебелью, ресторан высокой кухни, спа-центр и бассейн.";
     features :=
       ["5 звезд"; "Бассейн"; "Спа"; "Ресторан"; "Вид на Кремль"; "Центр города"] |}.

Definition hotel_2 : Hotel :=
  {| name := "Эконом Хостел Петербург";
     description :=
       "Бюджетный хостел с общими номерами, расположенный недалеко от метро. Базовые удобства, общая кухня, Wi-Fi.";
     features :=
       ["Бюджетный"; "Общие номера"; "Рядом с метро"; "Wi-Fi"; "Общая кухня"] |}.

Definition hotel_3 : Hotel :=
  {| name := "Бизнес Отель Сити";
     description :=
       "Комфортабельный трехзвездочный отель для деловых путешественников. Конференц-залы, быстрый Wi-Fi, завтрак включен.";
     features :=
       ["3 звезды"; "Для бизнеса"; "Конференц-залы"; "Завтрак включен"; "Быстрый Wi-Fi"] |}.

Definition HOTEL_DATA : gmap string Hotel :=
  list_to_map [("hotel_1", hotel_1); ("hotel_2", hotel_2); ("hotel_3", hotel_3)].

Definition REVIEWS_DATASET : gmap string (list string) :=
  list_to_map [
    ("hotel_1",
     ["Потрясающий отель! Шикарные номера, великолепный вид на Кремль. Персонал очень внимательный. Ресторан на высшем уровне, спа-процедуры превосходные.";
      "Люксовый отель с отличным расположением. Бассейн чистый, спа замечательное. Номера просторные и роскошные. Полностью оправдывает свои 5 звезд.";
      "Прекрасное место для отдыха! Все на высшем уровне - от номеров до обслуживания. Вид из окна потрясающий, завтраки отличные."]);
    ("hotel_2",
     ["Недорогой хостел с базовыми удобствами. Чисто, но очень шумно в общих номерах. Метро рядом, что удобно. За свои деньги нормально.";
      "Бюджетный вариант для ночлега. Кровати удобные, есть кухня. Интернет работает хорошо. Не ждите роскоши, но для экономных туристов подойдет.";
      "Простой хостел, все минимально. Чисто, есть Wi-Fi и общая кухня. Хорошее расположение возле метро. Цена соответствует качеству."]);
    ("hotel_3",
     ["Отличный отель для командировки. Хороший интернет, есть где провести встречу. Завтраки включены, номера чистые и комфортные.";
      "Удобно для деловых поездок. Конференц-залы оборудованы всем необходимым. Персонал профессиональный, Wi-Fi быстрый. Рекомендую для бизнеса.";
      "Комфортный отель для работы. Номера спокойные, есть рабочее место. Завтраки хорошие, интернет стабильный. Для деловых целей идеально."])].

Definition ANOMALOUS_REVIEWS : gmap string (list string) :=
  list_to_map [
    ("hotel_1",
     ["Очень дешево, но шумно. Общие номера не очень чистые. Для бюджетного варианта сойдет."]);
    ("hotel_2",
     ["Роскошные апартаменты, бассейн чистейший, персонал безупречен. Великолепный спа-центр!"]);
    ("hotel_3",
     ["Пляжный отдых удался! Море рядом, песочек чистый, коктейли у бассейна весь день."])].

(** The default of the environment variable SIMILARITY_THRESHOLD. *)
Definition SIMILARITY_THRESHOLD : float := 0.75%float.

(** A test double for the provider: the world counts the calls made, and
    the vector depends on the text only through its length. *)
Definition fake_provider (text : string) (n : nat)
  : result Similarity.Vec * nat :=
  (Ok [1%float; PrimFloat.of_uint63 (Uint63.of_Z (Z.of_nat (String.length text)))],
   S n).

(** A provider that is down: every call raises. *)
Definition down_provider (text : string) (n : nat)
  : result Similarity.Vec * nat :=
  (Raise (ProviderError "connection refused"), S n).

(** A provider that answers its first two calls and is down afterwards. *)
Definition flaky_provider (text : string) (n : nat)
  : result Similarity.Vec * nat :=
  if Nat.ltb n 2 then fake_provider text n
  else (Raise (ProviderError "timeout"), S n).

(** 101 distinct texts: "a", "aa", "aaa", ... *)
Definition texts : list string :=
  (fun n => String.concat "" (replicate n "a")) <$> seq 1 101.

End Sample.

(** ** Vocabulary of the further properties *)

(** The HTTP status of a response: [jsonify(...)] alone is a 200. *)
Definition status_of (r : response) : Z :=
  match r with
  | Report200 _ | Custom200 _ => 200
  | Error400 _ => 400
  | Error404 _ => 404
  | Error500 _ => 500
  end.

(** The texts the batch analysis embeds for a hotel, in the order of the
    code: the hotel text, the normal reviews, the anomalous reviews. *)
Definition batch_texts (REVIEWS_DATASET ANOMALOUS_REVIEWS : gmap string (list string))
    (hotel_id : string) (h : Hotel) : list string :=
  analyze_hotel_text h ::
    (default [] (REVIEWS_DATASET !! hotel_id)
     ++ default [] (ANOMALOUS_REVIEWS !! hotel_id))%list.

(** The entry of a report computed from one served request: the review, its
    similarity to the hotel embedding and the flag. *)
Definition scored (hotel_embedding : Similarity.Vec) (thr : float)
    (r : ReviewResult) (p : string * result Similarity.Vec) : Prop :=
  exists v, p = (review r, Ok v) /\
    Similarity.cosine_similarity hotel_embedding v = Ok (similarity r) /\
    needs_check r = (similarity r <? thr)%float.

(** ** The embedding client *)

(** [get_embedding] down to the HTTP exchange: the request it builds, the
    checks it makes on the response and the path it follows in the JSON
    document.  The transport ([requests.post]) stays abstract. *)
Module Http.

(** A JSON document as [response.json()] returns it; the fields of an
    object are in the order of the document. *)
#[local] Unset Elimination Schemes.
Inductive json : Type :=
  | JNull
  | JBool (b : bool)
  | JInt (n : Z)
  | JFloat (f : float)
  | JStr (s : string)
  | JArr (items : list json)
  | JObj (fields : list (string * json)).
#[local] Set Elimination Schemes.

(** What stands between the brackets of a subscription. *)
Inductive subscript : Type :=
  | SStr (s : string)
  | SInt (i : Z).

(** The exceptions of this layer.  [RequestException] stands for whatever
    [requests.post] raises (no connection, timeout, ...). *)
Inductive py_exn : Type :=
  | RequestException (msg : string)
  | HTTPError (status : Z)
  | JSONDecodeError
  | KeyError (key : subscript)
  | IndexError
  | TypeError.

Inductive py_result (A : Type) : Type :=
  | Return (a : A)
  | Throw (e : py_exn).
Arguments Return {A} a.
Arguments Throw {A} e.

(** [d[key]] on the dict built from a JSON object: of two fields with the
    same name the later one counts. *)
Fixpoint dict_get (key : string) (fields : list (string * json)) : option json :=
  match fields with
  | [] => None
  | (k, v) :: rest =>
      match dict_get key rest with
      | Some x => Some x
      | None => if decide (k = key) then Some v else None
      end
  end.

(** [l[i]] on a list; a negative index counts from the end. *)
Definition list_getitem (items : list json) (i : Z) : py_result json :=
  let n := Z.of_nat (length items) in
  let j := if (i <? 0)%Z then (i + n)%Z else i in
  if ((0 <=? j) && (j <? n))%Z
  then match items !! Z.to_nat j with
       | Some x => Return x
       | None => Throw IndexError
       end
  else Throw IndexError.

(** [s[i]] on a string: the string of its [i]-th character (strings are
    byte strings here). *)
Definition str_getitem (s : string) (i : Z) : py_result json :=
  let n := Z.of_nat (String.length s) in
  let j := if (i <? 0)%Z then (i + n)%Z else i in
  if ((0 <=? j) && (j <? n))%Z
  then match String.get (Z.to_nat j) s with
       | Some c => Return (JStr (String c EmptyString))
       | None => Throw IndexError
       end
  else Throw IndexError.

(** [v[k]] *)
Definition getitem (v : json) (k : subscript) : py_result json :=
  match v, k with
  | JObj fields, SStr key =>
      match dict_get key fields with
      | Some x => Return x
      | None => Throw (KeyError k)
      end
  | JObj _, SInt _ => Throw (KeyError k)
  | JArr items, SInt i => list_getitem items i
  | JArr _, SStr _ => Throw TypeError
  | JStr s, SInt i => str_getitem s i
  | JStr _, SStr _ => Throw TypeError
  | JNull, _ | JBool _, _ | JInt _, _ | JFloat _, _ => Throw TypeError
  end.

Definition bind {A B} (r : py_result A) (k : A -> py_result B) : py_result B :=
  match r with
  | Return a => k a
  | Throw e => Throw e
  end.

(** The arguments of [requests.post]. *)
Record Request : Type := mkRequest {
  url : string;
  headers : list (string * string);
  payload : json;
  timeout : Z
}.

(** What the code reads of a response: the status, and the document of the
    body, [None] when the body is not JSON. *)
Record Response : Type := mkResponse {
  status_code : Z;
  document : option json
}.

(** [response.raise_for_status()] *)
Definition raise_for_status (r : Response) : py_result unit :=
  if ((400 <=? status_code r) && (status_code r <? 600))%Z
  then Throw (HTTPError (status_code r))
  else Return tt.

(** [response.json()] *)
Definition response_json (r : Response) : py_result json :=
  match document r with
  | Some doc => Return doc
  | None => Throw JSONDecodeError
  end.

(** [result['data'][0]['embedding']] *)
Definition embedding_of (result : json) : py_result json :=
  bind (getitem result (SStr "data")) (fun data =>
  bind (getitem data (SInt 0)) (fun first =>
  getitem first (SStr "embedding"))).

Section Client.

Context {World : Type}.
Variable post : Request -> World -> py_result Response * World.
Variable OPENAI_API_URL OPENAI_API_KEY EMBEDDING_MODEL : string.

(** The request [get_embedding(text)] sends. *)
Definition embedding_request (text : string) : Request :=
  {| url := OPENAI_API_URL +:+ "/embeddings";
     headers := [("Authorization", "Bearer " +:+ OPENAI_API_KEY);
                 ("Content-Type", "application/json")];
     payload := JObj [("input", JStr text); ("model", JStr EMBEDDING_MODEL);
                      ("encoding_format", JStr "float")];
     timeout := 30 |}.

(** [get_embedding(text)]; the [except] clause logs and re-raises. *)
Definition get_embedding (text : string) (w : World)
  : py_result json * World :=
  match post (embedding_request text) w with
  | (Throw e, w') => (Throw e, w')
  | (Return response, w') =>
      (bind (raise_for_status response) (fun _ =>
       bind (response_json response) embedding_of), w')
  end.

End Client.

End Http.

(** Two transports for the examples: one that answers 200 with a document
    of the expected shape, one that answers 503 with the same body. *)
Module SampleHttp.

Definition embedding_document : Http.json :=
  Http.JObj
    [("object", Http.JStr "list");
     ("data",
      Http.JArr
        [Http.JObj [("index", Http.JInt 0);
                    ("embedding",
                     Http.JArr [Http.JFloat 0.5%float; Http.JFloat 1%float])]])].

Definition post_ok (r : Http.Request) (n : nat)
  : Http.py_result Http.Response * nat :=
  (Http.Return {| Http.status_code := 200;
                  Http.document := Some embedding_document |}, S n).

Definition post_unavailable (r : Http.Request) (n : nat)
  : Http.py_result Http.Response * nat :=
  (Http.Return {| Http.status_code := 503;
                  Http.document := Some embedding_document |}, S n).

End SampleHttp.

(** ** The custom-review route, from the request *)

(** What [request.get_json()] does with the request: it raises (no JSON
    content type, a malformed body) or returns the parsed document.  Where
    it returns [None], the document is [JNull]. *)
Inductive request_json : Type :=
  | GetJsonRaises (e : exn)
  | GetJsonReturns (doc : Http.json).

(** Python's truth value of a parsed JSON value. *)
Definition py_truthy (v : Http.json) : bool :=
  match v with
  | Http.JNull => false
  | Http.JBool b => b
  | Http.JInt n => negb (n =? 0)%Z
  | Http.JFloat f => negb (f =? 0)%float
  | Http.JStr s => negb (bool_decide (s = ""))
  | Http.JArr items => match items with [] => false | _ :: _ => true end
  | Http.JObj fields => match fields with [] => false | _ :: _ => true end
  end.

(** [data.get(key)] on the dict of a JSON object: [None] when the key is
    absent, which is also what a [null] under the key gives. *)
Definition data_get (key : string) (fields : list (string * Http.json))
  : Http.json :=
  default Http.JNull (Http.dict_get key fields).

(** A value as a text, when it is one. *)
Definition as_text (v : Http.json) : option string :=
  match v with
  | Http.JStr s => Some s
  | _ => None
  end.

Section Route.

Context {World : Type}.
Variable provider : string -> World -> result Similarity.Vec * World.
Variable HOTEL_DATA : gmap string Hotel.
Variable SIMILARITY_THRESHOLD : float.

(** [get_cached_embedding(v)] for a number or a boolean [v]: the cache
    takes any hashable key and the provider is sent whatever it is given.
    The store above has texts as keys, so what this call does is left
    open: the properties below hold whatever it does. *)
Variable cached_value :
  Http.json -> @State World -> result Similarity.Vec * @State World.

(** Lines 203 to 222 for a review text that is not a string.  A list or a
    dict cannot be hashed: [get_cached_embedding] raises before it looks
    anything up.  With the similarity computed, [jsonify] raises on the
    numpy bool as it does for a text. *)
Definition custom_review_other (h : Hotel) (review_text : Http.json)
    (st : State) : response * State :=
  match get_cached_embedding provider (custom_hotel_text h) st with
  | (Raise e, st1) => (Error500 e, st1)
  | (Ok hotel_embedding, st1) =>
      match review_text with
      | Http.JArr _ | Http.JObj _ => (Error500 TypeError, st1)
      | _ =>
          match cached_value review_text st1 with
          | (Raise e, st2) => (Error500 e, st2)
          | (Ok review_embedding, st2) =>
              match Similarity.cosine_similarity hotel_embedding review_embedding with
              | Raise e => (Error500 e, st2)
              | Ok _ => (Error500 TypeError, st2)
              end
          end
      end
  end.

(** Route [/api/custom_review], lines 192 to 222.  [data.get] raises
    [AttributeError] on anything but a dict; [hotel_id not in HOTEL_DATA]
    hashes [hotel_id], which raises [TypeError] on a list or a dict and
    finds no number or boolean among the keys, which are strings. *)
Definition custom_review_route (req : request_json) (st : State)
  : response * State :=
  match req with
  | GetJsonRaises e => (Error500 e, st)
  | GetJsonReturns (Http.JObj fields) =>
      let hotel_id := data_get "hotel_id" fields in
      let review_text := data_get "review_text" fields in
      if negb (py_truthy hotel_id) || negb (py_truthy review_text)
      then (Error400 "hotel_id and review_text are required", st)
      else
        match hotel_id with
        | Http.JArr _ | Http.JObj _ => (Error500 TypeError, st)
        | Http.JStr id =>
            match HOTEL_DATA !! id with
            | None => (Error404 "Hotel not found", st)
            | Some h =>
                match review_text with
                | Http.JStr text =>
                    custom_review_respond provider SIMILARITY_THRESHOLD h text st
                | _ => custom_review_other h review_text st
                end
            end
        | _ => (Error404 "Hotel not found", st)
        end
  | GetJsonReturns _ => (Error500 AttributeError, st)
  end.

End Route.

(** [hotel_id not in HOTEL_DATA] is true: the value can be hashed and is
    not one of the keys. *)
Definition not_in_table (HOTEL_DATA : gmap string Hotel) (hotel_id : Http.json)
  : Prop :=
  match hotel_id with
  | Http.JStr id => HOTEL_DATA !! id = None
  | Http.JArr _ | Http.JObj _ => False
  | _ => True
  end.

(** A cache call that refuses what is not a text, for the examples. *)
Definition refuse_value {World : Type} (v : Http.json) (st : @State World)
  : result Similarity.Vec * @State World :=
  (Raise (ProviderError "input must be a string"), st).

(** ** Facts on binary64 arithmetic used below *)

Section FloatFacts.

Lemma SFmul_comm (prec emax : Z) (x y : spec_float) :
  SFmul prec emax x y = SFmul prec emax y x.
Proof.
  destruct x as [sx|sx| |sx mx ex], y as [sy|sy| |sy my ey]; simpl;
    rewrite ?(xorb_comm sx sy); try reflexivity.
  now rewrite (Pos.mul_comm mx my), (Z.add_comm ex ey).
Qed.

Lemma float_mul_comm (x y : float) : (x * y = y * x)%float.
Proof.
  apply Prim2SF_inj. rewrite !FloatAxioms.mul_spec. apply SFmul_comm.
Qed.

Lemma float_eqb_not_ltb (x y : float) :
  (x =? y)%float = true -> (x <? y)%float = false.
Proof.
  rewrite FloatAxioms.eqb_spec, FloatAxioms.ltb_spec. unfold SFeqb, SFltb.
  destruct (SFcompare (Prim2SF x) (Prim2SF y)) as [[ | | ]|]; congruence.
Qed.

Lemma SFcompare_refl_not_Lt (x : spec_float) : SFcompare x x <> Some Lt.
Proof.
  destruct x as [[|]|[|]| |[|] m e]; simpl; try congruence;
    rewrite Z.compare_refl, Pos.compare_cont_refl; simpl; congruence.
Qed.

Lemma float_ltb_irrefl (x : float) : (x <? x)%float = false.
Proof.
  rewrite FloatAxioms.ltb_spec. unfold SFltb.
  pose proof (SFcompare_refl_not_Lt (Prim2SF x)) as H.
  destruct (SFcompare (Prim2SF x) (Prim2SF x)) as [[ | | ]|]; congruence.
Qed.

End FloatFacts.

(** ** The similarity engine *)

Section SimilarityProofs.

Import Similarity.

Lemma dot_sum_comm_acc (vec1 vec2 : Vec) (acc : float) :
  fold_left (fun acc p => (acc + fst p * snd p)%float) (combine vec1 vec2) acc =
  fold_left (fun acc p => (acc + fst p * snd p)%float) (combine vec2 vec1) acc.
Proof.
  revert vec2 acc.
  induction vec1 as [|x vec1 IH]; intros [|y vec2] acc; simpl; try reflexivity.
  rewrite (float_mul_comm x y). apply IH.
Qed.

Lemma dot_sum_comm (vec1 vec2 : Vec) : dot_sum vec1 vec2 = dot_sum vec2 vec1.
Proof. apply dot_sum_comm_acc. Qed.

Lemma np_dot_comm (vec1 vec2 : Vec) : np_dot vec1 vec2 = np_dot vec2 vec1.
Proof.
  unfold np_dot. rewrite (Nat.eqb_sym (length vec2)), dot_sum_comm. reflexivity.
Qed.

Lemma is_zero_spec (f : float) :
  PrimFloat.is_zero f = true -> exists s, Prim2SF f = S754_zero s.
Proof.
  unfold PrimFloat.is_zero. rewrite FloatAxioms.eqb_spec.
  change (Prim2SF zero) with (S754_zero false). unfold SFeqb.
  destruct (Prim2SF f) as [s|[|]| |[|] m e]; simpl; try discriminate; eauto.
Qed.

Lemma is_finite_false_spec (f : float) :
  Prim2SF f = S754_nan \/ (exists s, Prim2SF f = S754_infinity s) ->
  PrimFloat.is_finite f = false.
Proof.
  unfold PrimFloat.is_finite, PrimFloat.is_nan, PrimFloat.is_infinity.
  rewrite !FloatAxioms.eqb_spec, FloatAxioms.abs_spec.
  change (Prim2SF infinity) with (S754_infinity false).
  intros [-> | [[|] ->]]; reflexivity.
Qed.

(** A quotient whose divisor is a product with a zero factor is NaN or an
    infinity. *)
Lemma div_by_zero_norm (x n1 n2 : float) :
  PrimFloat.is_zero n1 = true \/ PrimFloat.is_zero n2 = true ->
  PrimFloat.is_finite (x / (n1 * n2)) = false.
Proof.
  intros Hz. apply is_finite_false_spec.
  rewrite FloatAxioms.div_spec, FloatAxioms.mul_spec.
  destruct Hz as [Hz | Hz]; apply is_zero_spec in Hz as [s ->].
  - destruct (Prim2SF x) as [?|?| |? ? ?], (Prim2SF n2) as [?|?| |? ? ?];
      simpl; eauto.
  - destruct (Prim2SF x) as [?|?| |? ? ?], (Prim2SF n1) as [?|?| |? ? ?];
      simpl; eauto.
Qed.

(** Vectors of one length always have a similarity. *)
Lemma cosine_similarity_same_length (vec1 vec2 : Vec) :
  length vec1 = length vec2 ->
  cosine_similarity vec1 vec2 =
    Ok (dot_sum vec1 vec2 / (np_linalg_norm vec1 * np_linalg_norm vec2))%float.
Proof.
  intros Hlen. unfold cosine_similarity, np_dot.
  apply Nat.eqb_eq in Hlen. now rewrite Hlen.
Qed.

(** A float that is not NaN is [==] to itself. *)
Lemma float_eqb_refl (x : float) :
  PrimFloat.is_nan x = false -> (x =? x)%float = true.
Proof.
  unfold PrimFloat.is_nan. now destruct (x =? x)%float.
Qed.

End SimilarityProofs.

Section SimilarityClaims.

Import Similarity.

(** C9. Cosine similarity is symmetric: exchanging the two vectors gives the
    same outcome, the same float when the lengths agree (in particular for
    equal-length vectors of non-zero norm) and the same error otherwise.
    Unless that float is NaN, the two results also compare equal with
    [==]. *)
Theorem cosine_similarity_symmetric (vec1 vec2 : Vec) :
  cosine_similarity vec1 vec2 = cosine_similarity vec2 vec1 /\
  (forall r, cosine_similarity vec1 vec2 = Ok r ->
     PrimFloat.is_nan r = false ->
     exists r', cosine_similarity vec2 vec1 = Ok r' /\ (r =? r')%float = true).
Proof.
  assert (cosine_similarity vec1 vec2 = cosine_similarity vec2 vec1) as Hsym.
  { unfold cosine_similarity. rewrite (np_dot_comm vec1 vec2).
    destruct (np_dot vec2 vec1) as [d|e]; [|reflexivity].
    now rewrite (float_mul_comm (np_linalg_norm vec1)). }
  split; [exact Hsym|].
  intros r Hr Hnan. exists r. rewrite <- Hsym.
  split; [exact Hr|now apply float_eqb_refl].
Qed.

Lemma cosine_similarity_symmetric_witness :
  exists r',
    cosine_similarity [1%float; 1%float; 1%float; 1%float]
      [1%float; 0%float; 0%float; 0%float] = Ok r' /\
    (0.5 =? r')%float = true.
Proof.
  apply (proj2 (cosine_similarity_symmetric
                  [1%float; 0%float; 0%float; 0%float]
                  [1%float; 1%float; 1%float; 1%float]) 0.5%float);
    reflexivity.
Defined.

(** Overflow makes the similarity of a vector with itself NaN. *)
Example cosine_similarity_overflow :
  cosine_similarity [0x1p+600%float] [0x1p+600%float] = Ok nan.
Proof. reflexivity. Qed.

(** C1, as the code has it.  Vectors of different lengths make the engine
    raise (numpy's [ValueError]).  Nothing is raised for a zero norm:
    equal-length vectors always give a number, and when either norm is zero
    that number is NaN or an infinity. *)
Theorem cosine_similarity_errors (vec1 vec2 : Vec) :
  (length vec1 <> length vec2 ->
     cosine_similarity vec1 vec2 = Raise ValueError) /\
  (length vec1 = length vec2 ->
     exists r, cosine_similarity vec1 vec2 = Ok r /\
       (PrimFloat.is_zero (np_linalg_norm vec1) = true \/
        PrimFloat.is_zero (np_linalg_norm vec2) = true ->
        PrimFloat.is_finite r = false)).
Proof.
  split; intros Hlen.
  - unfold cosine_similarity, np_dot.
    apply Nat.eqb_neq in Hlen. now rewrite Hlen.
  - rewrite (cosine_similarity_same_length _ _ Hlen).
    eexists. split; [reflexivity|]. apply div_by_zero_norm.
Qed.

Lemma cosine_similarity_errors_witness :
  cosine_similarity [1%float; 2%float] [1%float] = Raise ValueError /\
  exists r, cosine_similarity [0%float; 0%float] [1%float; 2%float] = Ok r /\
            PrimFloat.is_finite r = false.
Proof.
  split.
  - apply (proj1 (cosine_similarity_errors [1%float; 2%float] [1%float])).
    simpl. lia.
  - destruct (proj2 (cosine_similarity_errors [0%float; 0%float]
                       [1%float; 2%float]) eq_refl) as [r [Hr Hnf]].
    exists r. split; [exact Hr|]. apply Hnf. left. reflexivity.
Defined.

(** C1 fails as stated: a zero vector has norm zero, and the engine returns
    NaN for it instead of raising. *)
Lemma zero_norm_vector_yields_nan :
  PrimFloat.is_zero (np_linalg_norm [0%float; 0%float]) = true /\
  cosine_similarity [0%float; 0%float] [1%float; 2%float] = Ok nan /\
  is_ok (cosine_similarity [0%float; 0%float] [1%float; 2%float]) = true.
Proof. repeat split; reflexivity. Qed.

End SimilarityClaims.

(** ** Request validation and entity lookup *)

Section RouteClaims.

Context {World : Type}.
Variable provider : string -> World -> result Similarity.Vec * World.
Variable HOTEL_DATA : gmap string Hotel.
Variable REVIEWS_DATASET ANOMALOUS_REVIEWS : gmap string (list string).
Variable SIMILARITY_THRESHOLD : float.

Variable cached_value :
  Http.json -> @State World -> result Similarity.Vec * @State World.

Local Abbreviation custom :=
  (custom_review provider HOTEL_DATA SIMILARITY_THRESHOLD).
Local Abbreviation route :=
  (custom_review_route provider HOTEL_DATA SIMILARITY_THRESHOLD cached_value).
Local Abbreviation batch :=
  (analyze_hotel_reviews provider HOTEL_DATA REVIEWS_DATASET
     ANOMALOUS_REVIEWS SIMILARITY_THRESHOLD).
Local Abbreviation batch_route :=
  (analyze provider HOTEL_DATA REVIEWS_DATASET ANOMALOUS_REVIEWS
     SIMILARITY_THRESHOLD).

Lemma py_not_as_text (v : Http.json) :
  v = Http.JNull \/ (exists s, v = Http.JStr s) ->
  py_not (as_text v) = negb (py_truthy v).
Proof.
  intros [-> | [s ->]]; simpl; [reflexivity|].
  now rewrite negb_involutive.
Qed.

(** On a body that is an object with a string or nothing under each of the
    two keys, the route is [custom_review] on what [data.get] finds. *)
Lemma custom_review_route_text fields (st : State) :
  let hotel_id := data_get "hotel_id" fields in
  let review_text := data_get "review_text" fields in
  (hotel_id = Http.JNull \/ exists s, hotel_id = Http.JStr s) ->
  (review_text = Http.JNull \/ exists s, review_text = Http.JStr s) ->
  route (GetJsonReturns (Http.JObj fields)) st =
    custom (as_text hotel_id) (as_text review_text) st.
Proof.
  intros hotel_id review_text Hid Htxt.
  unfold custom_review_route, custom_review.
  fold hotel_id review_text.
  rewrite (py_not_as_text _ Hid), (py_not_as_text _ Htxt).
  destruct Hid as [-> | [id ->]]; [reflexivity|].
  destruct Htxt as [-> | [txt ->]]; [now rewrite orb_true_r|].
  simpl. destruct (_ || _); reflexivity.
Qed.

(** C7, as the code has it.  When the body of a custom-review request is a
    JSON object in which the hotel id or the review text is absent (or
    null), the route answers 400 and the state is untouched: nothing was
    embedded, no provider call was made and no similarity was computed.
    When the body is not an object (no body, null, a list, a string, a
    number) or cannot be read as JSON, both fields are missing as well,
    and the route answers 500 with the exception that was raised. *)
Theorem custom_review_missing_field :
  (forall fields (st : State),
     data_get "hotel_id" fields = Http.JNull \/
     data_get "review_text" fields = Http.JNull ->
     route (GetJsonReturns (Http.JObj fields)) st =
       (Error400 "hotel_id and review_text are required", st)) /\
  (forall doc (st : State),
     (forall fields, doc <> Http.JObj fields) ->
     route (GetJsonReturns doc) st = (Error500 AttributeError, st)) /\
  (forall e (st : State), route (GetJsonRaises e) st = (Error500 e, st)) /\
  (forall (hotel_id review_text : option string) (st : State),
     hotel_id = None \/ review_text = None ->
     custom hotel_id review_text st =
       (Error400 "hotel_id and review_text are required", st)).
Proof.
  repeat split.
  - intros fields st H. unfold custom_review_route.
    destruct H as [-> | ->]; simpl; [reflexivity|].
    now rewrite orb_true_r.
  - intros doc st Hdoc. destruct doc; try reflexivity.
    now destruct (Hdoc fields).
  - intros hotel_id review_text st. unfold custom_review.
    intros [-> | ->]; simpl; [reflexivity|].
    now rewrite orb_true_r.
Qed.

(** C10. An empty string in either field is rejected exactly as a missing
    field is: same 400 answer, state untouched (no lookup, no provider
    call). *)
Theorem custom_review_empty_field
    (hotel_id review_text : option string) (st : State) :
  custom (Some "") review_text st =
    (Error400 "hotel_id and review_text are required", st) /\
  custom hotel_id (Some "") st =
    (Error400 "hotel_id and review_text are required", st) /\
  custom (Some "") review_text st = custom None review_text st /\
  custom hotel_id (Some "") st = custom hotel_id None st.
Proof.
  unfold custom_review. simpl.
  rewrite !orb_true_r. repeat split; reflexivity.
Qed.

(** C6, as the code has it.  For an id that is not in HOTEL_DATA the batch
    analysis returns [None] and its route answers 404; the custom-review
    route answers 404 when its two fields are present and non-empty (the
    validation of the fields comes first).  The state is untouched in each
    case: no embedding and no similarity. *)
Theorem unknown_hotel_not_found (hotel_id : string) (st : State) :
  HOTEL_DATA !! hotel_id = None ->
  batch hotel_id st = (Ok None, st) /\
  batch_route hotel_id st = (Error404 "Hotel not found", st) /\
  (forall review_text,
     hotel_id <> "" -> review_text <> "" ->
     custom (Some hotel_id) (Some review_text) st =
       (Error404 "Hotel not found", st)).
Proof.
  intros Hnone.
  unfold analyze, analyze_hotel_reviews,
    custom_review.
  rewrite Hnone. repeat split.
  intros review_text Hid Htxt. simpl.
  rewrite !bool_decide_eq_false_2 by assumption. simpl.
  now rewrite Hnone.
Qed.

End RouteClaims.

(** A body with the hotel id alone is answered 400; a body that is [null]
    (or a request without a JSON body, where [get_json] returns [None]) is
    answered 500, though both fields are missing. *)
Lemma custom_review_missing_field_witness :
  custom_review_route Sample.fake_provider Sample.HOTEL_DATA
    Sample.SIMILARITY_THRESHOLD refuse_value
    (GetJsonReturns (Http.JObj [("hotel_id", Http.JStr "hotel_1")])) (init 0) =
  (Error400 "hotel_id and review_text are required", init 0) /\
  custom_review_route Sample.fake_provider Sample.HOTEL_DATA
    Sample.SIMILARITY_THRESHOLD refuse_value
    (GetJsonReturns Http.JNull) (init 0) =
  (Error500 AttributeError, init 0).
Proof.
  destruct (custom_review_missing_field Sample.fake_provider Sample.HOTEL_DATA
              Sample.SIMILARITY_THRESHOLD refuse_value) as (Hobj & Hother & _).
  split.
  - apply Hobj. right. reflexivity.
  - apply Hother. intros fields. discriminate.
Defined.

Lemma unknown_hotel_not_found_witness :
  analyze Sample.fake_provider Sample.HOTEL_DATA Sample.REVIEWS_DATASET
    Sample.ANOMALOUS_REVIEWS Sample.SIMILARITY_THRESHOLD "hotel_9" (init 0) =
  (Error404 "Hotel not found", init 0).
Proof.
  apply (unknown_hotel_not_found Sample.fake_provider Sample.HOTEL_DATA
           Sample.REVIEWS_DATASET Sample.ANOMALOUS_REVIEWS
           Sample.SIMILARITY_THRESHOLD "hotel_9" (init 0)).
  vm_compute. reflexivity.
Defined.

(** C6 fails as stated: for an id that is not in HOTEL_DATA, a custom-review
    request without review text is answered 400, not 404. *)
Lemma unknown_hotel_custom_review_400 :
  Sample.HOTEL_DATA !! "hotel_9" = None /\
  custom_review Sample.fake_provider Sample.HOTEL_DATA
    Sample.SIMILARITY_THRESHOLD (Some "hotel_9") None (init 0) =
  (Error400 "hotel_id and review_text are required", init 0).
Proof. split; vm_compute; reflexivity. Qed.

(** ** The orchestrator *)

Section OrchestratorClaims.

Context {World : Type}.
Variable provider : string -> World -> result Similarity.Vec * World.
Variable HOTEL_DATA : gmap string Hotel.
Variable REVIEWS_DATASET ANOMALOUS_REVIEWS : gmap string (list string).
Variable SIMILARITY_THRESHOLD : float.

Local Abbreviation cached := (get_cached_embedding provider).
Local Abbreviation loop := (analyze_reviews provider SIMILARITY_THRESHOLD).
Local Abbreviation custom :=
  (custom_review provider HOTEL_DATA SIMILARITY_THRESHOLD).
Local Abbreviation batch :=
  (analyze_hotel_reviews provider HOTEL_DATA REVIEWS_DATASET
     ANOMALOUS_REVIEWS SIMILARITY_THRESHOLD).

Lemma flag_agrees_ltb (sim thr : float) :
  flag_agrees sim thr (sim <? thr)%float.
Proof.
  split; [reflexivity|]. split; [apply float_eqb_not_ltb|].
  intros ->. apply float_ltb_irrefl.
Qed.

Lemma analyze_reviews_results hotel_embedding reviews st results st' :
  loop hotel_embedding reviews st = (Ok results, st') ->
  review <$> results = reviews /\
  Forall (fun r =>
            needs_check r = (similarity r <? SIMILARITY_THRESHOLD)%float /\
            exists v, Similarity.cosine_similarity hotel_embedding v
                      = Ok (similarity r)) results.
Proof.
  revert st results st'.
  induction reviews as [|rv rest IH]; intros st results st'; simpl.
  - intros [= <- <-]. split; constructor.
  - destruct (cached rv st) as [[v|e] st1]; [|discriminate].
    destruct (Similarity.cosine_similarity hotel_embedding v) as [sim|e] eqn:Hsim;
      [|discriminate].
    destruct (loop hotel_embedding rest st1) as [[rs|e] st2] eqn:Hrest;
      [|discriminate].
    intros [= <- <-]. destruct (IH _ _ _ Hrest) as [Hrev Hall].
    split; [rewrite fmap_cons, Hrev; reflexivity|].
    constructor; [|exact Hall]. simpl. split; [reflexivity|]. now exists v.
Qed.

Lemma batch_inv hotel_id st rep st' :
  batch hotel_id st = (Ok (Some rep), st') ->
  exists h, HOTEL_DATA !! hotel_id = Some h /\
    hotel rep = h /\ hotel_text rep = analyze_hotel_text h /\
    threshold rep = SIMILARITY_THRESHOLD /\
    exists hotel_embedding st1 st2,
      cached (analyze_hotel_text h) st = (Ok hotel_embedding, st1) /\
      loop hotel_embedding (default [] (REVIEWS_DATASET !! hotel_id)) st1
        = (Ok (normal_reviews rep), st2) /\
      loop hotel_embedding (default [] (ANOMALOUS_REVIEWS !! hotel_id)) st2
        = (Ok (anomalous_reviews rep), st').
Proof.
  unfold analyze_hotel_reviews.
  destruct (HOTEL_DATA !! hotel_id) as [h|]; [|discriminate].
  destruct (cached (analyze_hotel_text h) st) as [[he|e] st1] eqn:Hhe;
    [|discriminate].
  destruct (loop he (default [] (REVIEWS_DATASET !! hotel_id)) st1)
    as [[ns|e] st2] eqn:Hn; [|discriminate].
  destruct (loop he (default [] (ANOMALOUS_REVIEWS !! hotel_id)) st2)
    as [[ans|e] st3] eqn:Ha; [|discriminate].
  intros [= <- <-]. exists h. simpl. repeat split.
  exists he, st1, st2. repeat split; assumption.
Qed.

End OrchestratorClaims.

(** ** Lists ordered by recency *)

Section RecencyLemmas.

Context {A : Type} `{EqDecision A}.
Implicit Types (l : list A) (x : A).

Lemma filter_ne_notin x l : x ∉ l -> filter (fun y => y <> x) l = l.
Proof.
  induction l as [|y l IH]; [reflexivity|].
  rewrite not_elem_of_cons. intros [Hne Hnot].
  rewrite filter_cons_True by congruence. now rewrite IH.
Qed.

(** Removing an element that sits among the first [S n] of a duplicate-free
    list shortens that prefix by one. *)
Lemma filter_ne_take_in x l n :
  NoDup l -> x ∈ take (S n) l ->
  filter (fun y => y <> x) (take (S n) l) = take n (filter (fun y => y <> x) l).
Proof.
  intros Hnd. revert n. induction Hnd as [|y l Hy Hnd IH]; intros n.
  - simpl. intros H. now apply elem_of_nil in H.
  - simpl take. rewrite !filter_cons. destruct (decide (y <> x)) as [Hne|Heq].
    + rewrite elem_of_cons. intros [->|Hin]; [congruence|].
      destruct n as [|n]; [now apply elem_of_nil in Hin|].
      simpl take. f_equal. now apply IH.
    + assert (y = x) as -> by (destruct (decide (y = x)); tauto).
      intros _. rewrite (filter_ne_notin x l Hy).
      apply filter_ne_notin. intros Hin. apply Hy.
      exact (sublist_subseteq _ _ (sublist_take l n) x Hin).
Qed.

(** Removing an element that is not among the first [n] leaves them. *)
Lemma take_filter_ne_notin x l n :
  x ∉ take n l -> take n (filter (fun y => y <> x) l) = take n l.
Proof.
  revert n. induction l as [|y l IH]; intros [|n]; simpl; try reflexivity.
  rewrite not_elem_of_cons. intros [Hne Hnot].
  rewrite filter_cons_True by congruence. simpl. f_equal. now apply IH.
Qed.

End RecencyLemmas.

Lemma recency_NoDup (h : list string) : NoDup (recency h).
Proof.
  induction h as [|text h IH]; simpl; constructor.
  - rewrite list_elem_of_filter. tauto.
  - now apply NoDup_filter.
Qed.

(** ** The embedding cache *)

Section CacheLemmas.

Local Open Scope list_scope.

Context {World : Type}.
Variable provider : string -> World -> result Similarity.Vec * World.

Local Abbreviation cached := (get_cached_embedding provider).
Local Abbreviation run := (serve provider).
Local Abbreviation entries := (list (string * Similarity.Vec)).

Lemma cache_get_None (key : string) (c : entries) :
  cache_get key c = None <-> key ∉ c.*1.
Proof.
  induction c as [|[k v] c IH]; simpl.
  - split; [intros _; apply not_elem_of_nil|reflexivity].
  - rewrite not_elem_of_cons. destruct (decide (k = key)) as [->|Hne].
    + split; [discriminate|]. intros [H _]. now contradiction H.
    + rewrite IH. split; [intros H; split; [congruence|exact H]|tauto].
Qed.

Lemma cache_get_Some_elem (key : string) (c : entries) v :
  cache_get key c = Some v -> (key, v) ∈ c.
Proof.
  induction c as [|[k w] c IH]; simpl; [discriminate|].
  destruct (decide (k = key)) as [->|Hne].
  - intros [= ->]. apply list_elem_of_here.
  - intros H. apply list_elem_of_further. now apply IH.
Qed.

Lemma cache_get_app_notin (key : string) (pre post : entries) :
  key ∉ pre.*1 -> cache_get key (pre ++ post) = cache_get key post.
Proof.
  induction pre as [|[k w] pre IH]; simpl; [reflexivity|].
  rewrite not_elem_of_cons. intros [Hne Hnot].
  destruct (decide (k = key)); [congruence|]. now apply IH.
Qed.

Lemma cache_remove_keys (key : string) (c : entries) :
  (cache_remove key c).*1 = filter (fun k => k <> key) c.*1.
Proof.
  unfold cache_remove. induction c as [|[k v] c IH]; [reflexivity|].
  rewrite fmap_cons, !filter_cons. simpl.
  destruct (decide (k <> key)); simpl; [f_equal|]; exact IH.
Qed.

Lemma removelast_take (c : entries) : removelast c = take (pred (length c)) c.
Proof. apply removelast_firstn_len. Qed.

Lemma kept_on_insert_take (c : entries) :
  length c <= maxsize -> kept_on_insert c = take (pred maxsize) c.
Proof.
  intros Hlen. unfold kept_on_insert.
  destruct (Nat.leb_spec maxsize (length c)) as [Hfull|Hroom].
  - rewrite removelast_take. f_equal. lia.
  - symmetry. apply take_ge. lia.
Qed.

Lemma kept_on_insert_sublist (c : entries) : kept_on_insert c `sublist_of` c.
Proof.
  unfold kept_on_insert. destruct (Nat.leb maxsize (length c)); [|reflexivity].
  rewrite removelast_take. apply sublist_take.
Qed.

(** The three ways a request can go. *)
Lemma cached_cases (text : string) (st : State) :
  (exists v, cache_get text (cache st) = Some v /\
     cached text st =
       (Ok v, {| cache := (text, v) :: cache_remove text (cache st);
                 world := world st; calls := calls st |})) \/
  (cache_get text (cache st) = None /\
   exists e w', provider text (world st) = (Raise e, w') /\
     cached text st =
       (Raise e, {| cache := cache st; world := w';
                    calls := text :: calls st |})) \/
  (cache_get text (cache st) = None /\
   exists v w', provider text (world st) = (Ok v, w') /\
     cached text st =
       (Ok v, {| cache := (text, v) :: kept_on_insert (cache st);
                 world := w'; calls := text :: calls st |})).
Proof.
  unfold get_cached_embedding, get_embedding.
  destruct (cache_get text (cache st)) as [v|] eqn:Hget.
  - left. now exists v.
  - right. destruct (provider text (world st)) as [[v|e] w'] eqn:Hp.
    + right. split; [reflexivity|]. now exists v, w'.
    + left. split; [reflexivity|]. now exists e, w'.
Qed.

Lemma cached_keys_cases (text : string) (st : State) (r : result Similarity.Vec)
    (st' : State) :
  length (cache st) <= maxsize ->
  cached text st = (r, st') ->
  (is_ok r = true /\ text ∈ (cache st).*1 /\
     (cache st').*1 = text :: filter (fun k => k <> text) (cache st).*1) \/
  (is_ok r = false /\ cache st' = cache st) \/
  (is_ok r = true /\ (text ∉ (cache st).*1) /\
     (cache st').*1 = text :: take (pred maxsize) (cache st).*1).
Proof.
  intros Hlen Hrun.
  destruct (cached_cases text st)
    as [(v & Hget & Heq) | [(Hget & e & w' & _ & Heq) | (Hget & v & w' & _ & Heq)]];
    rewrite Heq in Hrun; injection Hrun as <- <-; simpl.
  - left. split; [reflexivity|]. split.
    + apply cache_get_Some_elem in Hget.
      apply list_elem_of_fmap. now exists (text, v).
    + now rewrite cache_remove_keys.
  - right. left. split; reflexivity.
  - right. right. split; [reflexivity|]. split.
    + now apply cache_get_None.
    + now rewrite kept_on_insert_take, fmap_take.
Qed.

Lemma lru_of_length h (st : @State World) :
  lru_of h st -> length (cache st) <= maxsize.
Proof.
  unfold lru_of. intros H.
  rewrite <- (length_fmap fst), H, length_take. lia.
Qed.

Lemma cached_lru (text : string) (st : State) r st' h :
  lru_of h st -> cached text st = (r, st') ->
  lru_of (if is_ok r then text :: h else h) st'.
Proof.
  intros Hlru Hrun. pose proof (lru_of_length _ _ Hlru) as Hlen.
  unfold lru_of in *.
  destruct (cached_keys_cases _ _ _ _ Hlen Hrun)
    as [(-> & Hin & ->) | [(-> & ->) | (-> & Hnot & ->)]];
    [| exact Hlru |]; rewrite Hlru in *;
    change maxsize with (S (pred maxsize)); simpl recency; simpl take;
    change (S (pred maxsize)) with maxsize in *; f_equal.
  - change maxsize with (S (pred maxsize)) in *.
    apply filter_ne_take_in; [apply recency_NoDup | exact Hin].
  - rewrite take_take, Nat.min_l by (unfold maxsize; simpl; lia).
    symmetry. apply take_filter_ne_notin.
    intros Hin. apply Hnot.
    rewrite <- (take_take_drop _ (pred maxsize) 1).
    apply elem_of_app. now left.
Qed.

Lemma serve_lru (reqs : list string) (st : State) h tr st' :
  lru_of h st -> run reqs st = (tr, st') -> lru_of (served_acc tr h) st'.
Proof.
  revert st h tr st'. induction reqs as [|text reqs IH]; intros st h tr st' Hlru.
  - simpl. now intros [= <- <-].
  - simpl. destruct (cached text st) as [r st1] eqn:Hstep.
    destruct (run reqs st1) as [tr1 st2] eqn:Hrest.
    intros [= <- <-]. simpl.
    eapply IH; [|exact Hrest]. eapply cached_lru; eassumption.
Qed.

Lemma lru_of_NoDup h (st : @State World) : lru_of h st -> NoDup (cache st).*1.
Proof.
  unfold lru_of. intros ->.
  eapply sublist_NoDup; [apply recency_NoDup | apply sublist_take].
Qed.

Lemma init_lru (w : World) : lru_of [] (init w).
Proof. reflexivity. Qed.

(** One request leaves a stored text [t] in the store, with its vector, as
    long as the texts in front of it and the requested one are fewer than
    the capacity; a request for [t] itself is a hit. *)
Lemma cached_keeps (t : string) (v : Similarity.Vec) (r : string)
    (st : State) res st' (pre post : entries) :
  NoDup (cache st).*1 ->
  cache st = pre ++ (t, v) :: post ->
  size (list_to_set pre.*1 ∪ {[r]} : gset string) < maxsize ->
  cached r st = (res, st') ->
  NoDup (cache st').*1 /\
  (exists pre' post',
      cache st' = pre' ++ (t, v) :: post' /\
      (list_to_set pre'.*1 : gset string) ⊆ list_to_set pre.*1 ∪ {[r]}) /\
  (r = t -> res = Ok v) /\
  (calls st' = calls st \/ (r <> t /\ calls st' = r :: calls st)).
Proof.
  intros Hnd Hc Hsize Hrun.
  assert (Hnd' := Hnd). rewrite Hc, fmap_app, fmap_cons in Hnd'. simpl in Hnd'.
  apply NoDup_app in Hnd' as (Hndpre & Hdisj & Hndpost).
  apply NoDup_cons in Hndpost as [Htpost Hndpost].
  assert (Htpre : t ∉ pre.*1).
  { intros Hin. apply (Hdisj _ Hin). apply list_elem_of_here. }
  assert (Hgett : cache_get t (cache st) = Some v).
  { rewrite Hc, cache_get_app_notin by exact Htpre. simpl.
    now rewrite decide_True. }
  destruct (cached_cases r st)
    as [(vr & Hget & Heq) | [(Hget & e & w' & _ & Heq) | (Hget & vr & w' & _ & Heq)]];
    rewrite Heq in Hrun; injection Hrun as <- <-; simpl.
  - (* hit *)
    split; [|split; [|split; [|now left]]].
    + rewrite cache_remove_keys. apply NoDup_cons. split.
      * rewrite list_elem_of_filter. tauto.
      * now apply NoDup_filter.
    + destruct (decide (r = t)) as [->|Hne].
      * assert (vr = v) as -> by congruence.
        exists [], (cache_remove t (cache st)). split; [reflexivity|].
        simpl. set_solver.
      * exists ((r, vr) :: cache_remove r pre), (cache_remove r post). split.
        -- rewrite Hc. unfold cache_remove.
           rewrite filter_app, filter_cons_True by (simpl; congruence).
           reflexivity.
        -- intros x. rewrite fmap_cons, cache_remove_keys. simpl.
           rewrite elem_of_union, !elem_of_list_to_set, list_elem_of_filter.
           set_solver.
    + intros ->. congruence.
  - (* miss, the provider raises *)
    assert (r <> t) by congruence.
    split; [exact Hnd|]. split; [|split; [tauto|now right]].
    exists pre, post. split; [exact Hc|]. set_solver.
  - (* miss, the vector is stored *)
    assert (Hne : r <> t) by congruence.
    apply cache_get_None in Hget.
    assert (Hrpre : r ∉ pre.*1).
    { intros Hin. apply Hget. rewrite Hc, fmap_app. apply elem_of_app. now left. }
    split; [|split; [|split; [tauto|now right]]].
    + apply NoDup_cons. split.
      * intros Hin. apply Hget.
        eapply (sublist_subseteq _ _ (fmap_sublist fst _ _ (kept_on_insert_sublist _)));
          exact Hin.
      * eapply sublist_NoDup; [exact Hnd|].
        apply fmap_sublist, kept_on_insert_sublist.
    + assert (Hkept : exists post', kept_on_insert (cache st) = pre ++ (t, v) :: post').
      { unfold kept_on_insert.
        destruct (Nat.leb_spec maxsize (length (cache st))) as [Hfull|Hroom];
          [|now exists post].
        rewrite Hc. rewrite removelast_app by discriminate.
        destruct post as [|p post]; [|now exists (removelast (p :: post))].
        exfalso. rewrite Hc, length_app in Hfull. simpl in Hfull.
        assert (size (list_to_set pre.*1 ∪ {[r]} : gset string) = S (length pre))
          as Hsz.
        { transitivity (size (list_to_set (r :: pre.*1) : gset string)).
          - f_equal. simpl. set_solver.
          - rewrite size_list_to_set by (apply NoDup_cons; now split).
            simpl. now rewrite length_fmap. }
        lia. }
      destruct Hkept as [post' ->].
      exists ((r, vr) :: pre), post'. split; [reflexivity|].
      rewrite fmap_cons. simpl. set_solver.
Qed.

Lemma serve_keeps (t : string) (v : Similarity.Vec) (reqs : list string) :
  forall (st : State) (pre post : entries) tr st',
    NoDup (cache st).*1 ->
    cache st = pre ++ (t, v) :: post ->
    size (list_to_set pre.*1 ∪ list_to_set reqs : gset string) < maxsize ->
    run reqs st = (tr, st') ->
    (forall res, (t, res) ∈ tr -> res = Ok v) /\
    exists new, calls st' = (new ++ calls st)%list /\ t ∉ new.
Proof.
  induction reqs as [|r reqs IH]; intros st pre post tr st' Hnd Hc Hsize.
  - simpl. intros [= <- <-]. split.
    + intros res Hin. now apply elem_of_nil in Hin.
    + exists []. split; [reflexivity|apply not_elem_of_nil].
  - simpl. destruct (cached r st) as [res1 st1] eqn:Hstep.
    destruct (run reqs st1) as [tr1 st2] eqn:Hrest.
    intros [= <- <-].
    assert (size (list_to_set pre.*1 ∪ {[r]} : gset string) < maxsize) as Hsize1.
    { eapply Nat.le_lt_trans; [|exact Hsize].
      apply subseteq_size. simpl. set_solver. }
    destruct (cached_keeps t v r st res1 st1 pre post Hnd Hc Hsize1 Hstep)
      as (Hnd1 & (pre1 & post1 & Hc1 & Hsub) & Hres & Hcalls).
    assert (size (list_to_set pre1.*1 ∪ list_to_set reqs : gset string) < maxsize)
      as Hsize2.
    { eapply Nat.le_lt_trans; [|exact Hsize].
      apply subseteq_size. simpl. set_solver. }
    destruct (IH st1 pre1 post1 tr1 st2 Hnd1 Hc1 Hsize2 Hrest)
      as [Hall (new & Hnew & Hnot)].
    split.
    + intros res. rewrite elem_of_cons. intros [[= <- <-]|Hin]; [auto|].
      now apply Hall.
    + destruct Hcalls as [Heq | [Hne Heq]]; rewrite Hnew, Heq.
      * now exists new.
      * exists (new ++ [r])%list. split; [now rewrite <- app_assoc|].
        rewrite not_elem_of_app, not_elem_of_cons.
        split; [exact Hnot|]. split; [congruence|apply not_elem_of_nil].
Qed.

Lemma cached_length (text : string) (st : State) r st' :
  length (cache st) <= maxsize -> cached text st = (r, st') ->
  length (cache st') <= maxsize.
Proof.
  intros Hlen Hrun.
  pose proof (cached_keys_cases _ _ _ _ Hlen Hrun) as Hcases.
  rewrite <- (length_fmap fst) in Hlen.
  rewrite <- (length_fmap fst (cache st')).
  destruct Hcases as [(_ & Hin & ->) | [(_ & ->) | (_ & _ & ->)]];
    [|exact Hlen|].
  - apply list_elem_of_split in Hin as (l1 & l2 & Heq).
    rewrite Heq in Hlen |- *. rewrite filter_app, filter_cons_False by tauto.
    simpl. rewrite length_app in *. simpl in Hlen.
    pose proof (length_filter (fun k => k <> text) l1).
    pose proof (length_filter (fun k => k <> text) l2). lia.
  - simpl. rewrite length_take. unfold maxsize. lia.
Qed.

Lemma serve_length (reqs : list string) (st : State) :
  length (cache st) <= maxsize -> length (cache (run reqs st).2) <= maxsize.
Proof.
  revert st. induction reqs as [|text reqs IH]; intros st Hlen; [exact Hlen|].
  simpl. destruct (cached text st) as [r st1] eqn:Hstep.
  specialize (IH st1 (cached_length _ _ _ _ Hlen Hstep)).
  now destruct (run reqs st1).
Qed.

(** C8. Serving requests keeps the store within 100 entries.  Whatever
    requests the process has served since its start, the stored texts are,
    in order, the most recently served ones: an insertion into a full store
    therefore drops the least recently used entry, which is the last one. *)
Theorem cache_bounded_lru (w : World) (reqs : list string) :
  (forall st : State,
     length (cache st) <= maxsize ->
     length (cache (run reqs st).2) <= maxsize) /\
  length (cache (run reqs (init w)).2) <= maxsize /\
  (cache (run reqs (init w)).2).*1 =
    take maxsize (recency (served (run reqs (init w)).1)) /\
  (forall text v st',
     length (cache (run reqs (init w)).2) = maxsize ->
     cache_get text (cache (run reqs (init w)).2) = None ->
     cached text (run reqs (init w)).2 = (Ok v, st') ->
     cache st' = (text, v) :: removelast (cache (run reqs (init w)).2)).
Proof.
  split; [apply serve_length|].
  destruct (run reqs (init w)) as [tr st] eqn:Hrun. simpl.
  pose proof (serve_lru _ _ _ _ _ (init_lru w) Hrun) as Hlru.
  split; [now apply (lru_of_length (served_acc tr []))|].
  split; [exact Hlru|].
  intros text v st' Hfull Hmiss Hstep.
  destruct (cached_cases text st)
    as [(v' & Hget & _) | [(_ & e & w' & _ & Heq) | (_ & v' & w' & _ & Heq)]];
    [congruence | congruence |].
  rewrite Heq in Hstep. injection Hstep as <- <-. simpl.
  unfold kept_on_insert. now rewrite Hfull, Nat.leb_refl.
Qed.

(** C4. Once a text [t] has been embedded, and as long as the requests that
    follow name fewer than 100 distinct texts, every request for [t] returns
    the stored vector, and the provider is not called for [t] again. *)
Theorem cached_embedding_reused (w : World) (history : list string)
    (t : string) (v : Similarity.Vec) (st1 : State) (reqs : list string)
    (tr : list (string * result Similarity.Vec)) (st2 : State) :
  cached t (run history (init w)).2 = (Ok v, st1) ->
  size (list_to_set reqs : gset string) < maxsize ->
  run reqs st1 = (tr, st2) ->
  (forall res, (t, res) ∈ tr -> res = Ok v) /\
  exists new, calls st2 = new ++ calls st1 /\ t ∉ new.
Proof.
  intros Hfirst Hsize Hrun.
  destruct (run history (init w)) as [tr0 st0] eqn:Hhist. simpl in Hfirst.
  pose proof (serve_lru _ _ _ _ _ (init_lru w) Hhist) as Hlru0.
  pose proof (cached_lru _ _ _ _ _ Hlru0 Hfirst) as Hlru1.
  apply lru_of_NoDup in Hlru1.
  assert (exists post, cache st1 = [] ++ (t, v) :: post) as [post Hc].
  { destruct (cached_cases t st0)
      as [(v' & _ & Heq) | [(_ & e & w' & _ & Heq) | (_ & v' & w' & _ & Heq)]];
      rewrite Heq in Hfirst; injection Hfirst as <- <- || discriminate;
      simpl; eauto. }
  eapply (serve_keeps t v reqs st1 [] post); try eassumption.
  eapply Nat.le_lt_trans; [|exact Hsize].
  apply subseteq_size. simpl. set_solver.
Qed.

End CacheLemmas.

(** ** The batch report *)

Section ReportClaims.

Local Open Scope list_scope.

Context {World : Type}.
Variable provider : string -> World -> result Similarity.Vec * World.
Variable HOTEL_DATA : gmap string Hotel.
Variable REVIEWS_DATASET ANOMALOUS_REVIEWS : gmap string (list string).
Variable SIMILARITY_THRESHOLD : float.

Local Abbreviation cached := (get_cached_embedding provider).
Local Abbreviation loop := (analyze_reviews provider SIMILARITY_THRESHOLD).
Local Abbreviation batch :=
  (analyze_hotel_reviews provider HOTEL_DATA REVIEWS_DATASET
     ANOMALOUS_REVIEWS SIMILARITY_THRESHOLD).

Lemma cached_total (d : nat) (text : string) (st : State) :
  provider_total provider d -> cache_dim d st ->
  exists v st', cached text st = (Ok v, st') /\ length v = d /\ cache_dim d st'.
Proof.
  unfold cache_dim. intros Htotal Hdim. rewrite Forall_forall in Hdim.
  destruct (cached_cases provider text st)
    as [(v & Hget & Heq) | [(_ & e & w' & Hp & _) | (_ & v & w' & Hp & Heq)]].
  - apply cache_get_Some_elem in Hget.
    exists v. eexists. split; [exact Heq|]. split; [exact (Hdim _ Hget)|].
    simpl. apply Forall_cons. split; [exact (Hdim _ Hget)|].
    apply Forall_forall. intros p Hp. apply Hdim.
    unfold cache_remove in Hp. now apply list_elem_of_filter in Hp as [_ Hp].
  - destruct (Htotal text (world st)) as (v & Hv & _).
    rewrite Hp in Hv. discriminate.
  - destruct (Htotal text (world st)) as (v' & Hv & Hlen).
    rewrite Hp in Hv. simpl in Hv. injection Hv as ->.
    exists v'. eexists. split; [exact Heq|]. split; [exact Hlen|].
    simpl. apply Forall_cons. split; [exact Hlen|].
    apply Forall_forall. intros p Hin. apply Hdim.
    exact (sublist_subseteq _ _ (kept_on_insert_sublist _) p Hin).
Qed.

Lemma analyze_reviews_total (d : nat) (hotel_embedding : Similarity.Vec)
    (reviews : list string) (st : State) :
  provider_total provider d -> cache_dim d st -> length hotel_embedding = d ->
  exists results st',
    loop hotel_embedding reviews st = (Ok results, st') /\ cache_dim d st'.
Proof.
  intros Htotal Hdim Hlen. revert st Hdim.
  induction reviews as [|rv rest IH]; intros st Hdim; simpl.
  - now exists [], st.
  - destruct (cached_total d rv st Htotal Hdim) as (v & st1 & -> & Hv & Hdim1).
    rewrite (cosine_similarity_same_length hotel_embedding v) by congruence.
    destruct (IH st1 Hdim1) as (rs & st2 & -> & Hdim2).
    eauto.
Qed.

(** C5. For a hotel id of HOTEL_DATA, a report returned by the batch
    analysis carries the hotel record, the text built from it, the
    threshold, and one result per registered review, normal and anomalous,
    in the order of the registered lists; and a report is returned whenever
    the provider answers every request with vectors of one dimension. *)
Theorem analyze_returns_registered_reviews (hotel_id : string) (h : Hotel)
    (st : State) :
  HOTEL_DATA !! hotel_id = Some h ->
  (forall out st', batch hotel_id st = (Ok out, st') ->
     exists rep, out = Some rep /\
       hotel rep = h /\
       hotel_text rep = analyze_hotel_text h /\
       review <$> normal_reviews rep = default [] (REVIEWS_DATASET !! hotel_id) /\
       review <$> anomalous_reviews rep
         = default [] (ANOMALOUS_REVIEWS !! hotel_id) /\
       threshold rep = SIMILARITY_THRESHOLD) /\
  (forall d, provider_total provider d -> cache_dim d st ->
     exists rep st', batch hotel_id st = (Ok (Some rep), st')).
Proof.
  intros Hh. split.
  - intros [rep|] st' Hrun.
    + exists rep. split; [reflexivity|].
      destruct (batch_inv _ _ _ _ _ _ _ _ _ Hrun)
        as (h' & Hh' & Hhotel & Htext & Hthr & he & st1 & st2 & _ & Hn & Ha).
      assert (h' = h) as -> by congruence.
      apply analyze_reviews_results in Hn as [Hn _].
      apply analyze_reviews_results in Ha as [Ha _].
      repeat split; assumption.
    + exfalso. revert Hrun. unfold analyze_hotel_reviews. rewrite Hh.
      destruct (cached (analyze_hotel_text h) st) as [[he|e] st1];
        [|discriminate].
      destruct (loop he (default [] (REVIEWS_DATASET !! hotel_id)) st1)
        as [[ns|e] st2]; [|discriminate].
      destruct (loop he (default [] (ANOMALOUS_REVIEWS !! hotel_id)) st2)
        as [[ans|e] st3]; discriminate.
  - intros d Htotal Hdim. unfold analyze_hotel_reviews. rewrite Hh.
    destruct (cached_total d (analyze_hotel_text h) st Htotal Hdim)
      as (he & st1 & -> & Hlen & Hdim1).
    destruct (analyze_reviews_total d he
                (default [] (REVIEWS_DATASET !! hotel_id)) st1 Htotal Hdim1 Hlen)
      as (ns & st2 & -> & Hdim2).
    destruct (analyze_reviews_total d he
                (default [] (ANOMALOUS_REVIEWS !! hotel_id)) st2 Htotal Hdim2 Hlen)
      as (ans & st3 & -> & _).
    eauto.
Qed.

End ReportClaims.

(** ** Entity text *)

Section EntityTextClaims.

Local Open Scope list_scope.

Context {World : Type}.
Variable provider : string -> World -> result Similarity.Vec * World.
Variable HOTEL_DATA : gmap string Hotel.
Variable REVIEWS_DATASET ANOMALOUS_REVIEWS : gmap string (list string).
Variable SIMILARITY_THRESHOLD : float.

Local Abbreviation cached := (get_cached_embedding provider).
Local Abbreviation loop := (analyze_reviews provider SIMILARITY_THRESHOLD).
Local Abbreviation custom :=
  (custom_review provider HOTEL_DATA SIMILARITY_THRESHOLD).
Local Abbreviation batch :=
  (analyze_hotel_reviews provider HOTEL_DATA REVIEWS_DATASET
     ANOMALOUS_REVIEWS SIMILARITY_THRESHOLD).

(** The call log only grows, at its front. *)
Lemma cached_calls (text : string) (st : State) :
  exists new, calls (cached text st).2 = new ++ calls st.
Proof.
  destruct (cached_cases provider text st)
    as [(v & _ & ->) | [(_ & e & w' & _ & ->) | (_ & v & w' & _ & ->)]]; simpl.
  - now exists [].
  - now exists [text].
  - now exists [text].
Qed.

Lemma analyze_reviews_calls hotel_embedding (reviews : list string) (st : State) :
  exists new, calls (loop hotel_embedding reviews st).2 = new ++ calls st.
Proof.
  revert st. induction reviews as [|rv rest IH]; intros st; simpl.
  - now exists [].
  - destruct (cached_calls rv st) as [new1 Hnew1].
    destruct (cached rv st) as [[v|e] st1]; simpl in Hnew1; [|now exists new1].
    destruct (Similarity.cosine_similarity hotel_embedding v) as [sim|e];
      [|now exists new1].
    destruct (IH st1) as [new2 Hnew2].
    destruct (loop hotel_embedding rest st1) as [[rs|e] st2]; simpl in *;
      exists (new2 ++ new1); now rewrite Hnew2, Hnew1, app_assoc.
Qed.

(** In a fresh process the first request goes to the provider. *)
Lemma cached_first_call (text : string) (w : World) :
  calls (cached text (init w)).2 = [text].
Proof.
  unfold get_cached_embedding, get_embedding. simpl.
  now destruct (provider text w) as [[v|e] w'].
Qed.

(** C3, as the code has it.  The text is the name, a full stop, the
    description, the label "Особенности" and the features joined by a comma
    and a space; it is a function of the entity, and the batch analysis and
    the custom-review analysis build the same text: it is the text of the
    report, and in a fresh process it is the first text either operation
    sends to the provider. *)
Theorem hotel_text_template (h : Hotel) :
  analyze_hotel_text h =
    (name h +:+ ". " +:+ description h +:+ " Особенности: "
       +:+ join ", " (features h))%string /\
  custom_hotel_text h = analyze_hotel_text h /\
  (forall hotel_id w,
     HOTEL_DATA !! hotel_id = Some h ->
     (forall st rep st',
        batch hotel_id st = (Ok (Some rep), st') ->
        hotel_text rep = analyze_hotel_text h) /\
     last (calls (batch hotel_id (init w)).2) = Some (analyze_hotel_text h) /\
     (forall review_text,
        hotel_id <> ""%string -> review_text <> ""%string ->
        last (calls (custom (Some hotel_id) (Some review_text) (init w)).2)
          = Some (analyze_hotel_text h))).
Proof.
  split; [reflexivity|]. split; [reflexivity|].
  intros hotel_id w Hh. split; [|split].
  - intros st rep st' Hrun.
    destruct (batch_inv _ _ _ _ _ _ _ _ _ Hrun) as (h' & Hh' & _ & -> & _).
    congruence.
  - unfold analyze_hotel_reviews. rewrite Hh.
    pose proof (cached_first_call (analyze_hotel_text h) w) as Hfirst.
    destruct (cached (analyze_hotel_text h) (init w)) as [[he|e] st1];
      simpl in Hfirst; [|simpl; now rewrite Hfirst].
    destruct (analyze_reviews_calls he
                (default [] (REVIEWS_DATASET !! hotel_id)) st1) as [new1 Hn].
    destruct (loop he (default [] (REVIEWS_DATASET !! hotel_id)) st1)
      as [[ns|e] st2]; simpl in Hn;
      [|simpl; rewrite Hn, Hfirst; apply last_snoc].
    destruct (analyze_reviews_calls he
                (default [] (ANOMALOUS_REVIEWS !! hotel_id)) st2) as [new2 Ha].
    destruct (loop he (default [] (ANOMALOUS_REVIEWS !! hotel_id)) st2)
      as [[ans|e] st3]; simpl in Ha; simpl;
      rewrite Ha, Hn, Hfirst, app_assoc; apply last_snoc.
  - intros review_text Hid Htxt. unfold custom_review. simpl.
    rewrite !bool_decide_eq_false_2 by assumption. simpl. rewrite Hh.
    unfold custom_review_respond, custom_review_payload.
    change (custom_hotel_text h) with (analyze_hotel_text h).
    pose proof (cached_first_call (analyze_hotel_text h) w) as Hfirst.
    destruct (cached (analyze_hotel_text h) (init w)) as [[he|e] st1];
      simpl in Hfirst; [|simpl; now rewrite Hfirst].
    destruct (cached_calls review_text st1) as [new Hnew].
    destruct (cached review_text st1) as [[re|e] st2]; simpl in Hnew;
      [destruct (Similarity.cosine_similarity he re)|]; simpl;
      rewrite Hnew, Hfirst; apply last_snoc.
Qed.

End EntityTextClaims.

Lemma hotel_text_template_witness :
  last (calls (analyze_hotel_reviews Sample.fake_provider Sample.HOTEL_DATA
                 Sample.REVIEWS_DATASET Sample.ANOMALOUS_REVIEWS
                 Sample.SIMILARITY_THRESHOLD "hotel_2" (init 0)).2)
  = Some (analyze_hotel_text Sample.hotel_2).
Proof.
  apply (proj2 (proj2 (hotel_text_template Sample.fake_provider
                         Sample.HOTEL_DATA Sample.REVIEWS_DATASET
                         Sample.ANOMALOUS_REVIEWS Sample.SIMILARITY_THRESHOLD
                         Sample.hotel_2)) "hotel_2" 0 eq_refl).
Defined.

Example hotel_2_text :
  analyze_hotel_text Sample.hotel_2 =
  "Эконом Хостел Петербург. Бюджетный хостел с общими номерами, расположенный недалеко от метро. Базовые удобства, общая кухня, Wi-Fi. Особенности: Бюджетный, Общие номера, Рядом с метро, Wi-Fi, Общая кухня"%string.
Proof. reflexivity. Qed.

(** C3 fails as stated: the text built for the first sample hotel is not
    the one the template with the label "Features" gives. *)
Lemma hotel_text_not_spec_template :
  analyze_hotel_text Sample.hotel_1 <> spec_template_text Sample.hotel_1 /\
  custom_hotel_text Sample.hotel_1 <> spec_template_text Sample.hotel_1.
Proof. split; vm_compute; discriminate. Qed.

(** ** The claims on the sample data *)

Section SampleRuns.

Local Open Scope list_scope.

Local Abbreviation fake_cached := (get_cached_embedding Sample.fake_provider).
Local Abbreviation fake_serve := (serve Sample.fake_provider).
Local Abbreviation fake_batch :=
  (analyze_hotel_reviews Sample.fake_provider Sample.HOTEL_DATA
     Sample.REVIEWS_DATASET Sample.ANOMALOUS_REVIEWS
     Sample.SIMILARITY_THRESHOLD).
Local Abbreviation fake_custom :=
  (custom_review Sample.fake_provider Sample.HOTEL_DATA
     Sample.SIMILARITY_THRESHOLD).

Lemma analyze_returns_registered_reviews_witness :
  exists rep st', fake_batch "hotel_1" (init 0) = (Ok (Some rep), st').
Proof.
  apply (proj2 (analyze_returns_registered_reviews Sample.fake_provider
                  Sample.HOTEL_DATA Sample.REVIEWS_DATASET
                  Sample.ANOMALOUS_REVIEWS Sample.SIMILARITY_THRESHOLD
                  "hotel_1" Sample.hotel_1 (init 0) eq_refl) 2).
  - intros text w. eexists. split; reflexivity.
  - apply Forall_nil_2.
Defined.

Lemma cached_embedding_reused_witness :
  (forall res,
     ("a", res) ∈ (fake_serve ["b"; "a"; "c"; "a"] (fake_cached "a" (init 0)).2).1 ->
     res = Ok [1%float; 1%float]) /\
  exists new,
    calls (fake_serve ["b"; "a"; "c"; "a"] (fake_cached "a" (init 0)).2).2
      = new ++ calls (fake_cached "a" (init 0)).2 /\ "a" ∉ new.
Proof.
  apply (cached_embedding_reused Sample.fake_provider 0 [] "a"
           [1%float; 1%float] (fake_cached "a" (init 0)).2
           ["b"; "a"; "c"; "a"]).
  - vm_compute. reflexivity.
  - vm_compute. lia.
  - vm_compute. reflexivity.
Defined.

Lemma cache_bounded_lru_witness :
  length (cache (fake_serve Sample.texts (init 0)).2) <= maxsize.
Proof.
  apply (proj1 (proj2 (cache_bounded_lru Sample.fake_provider 0 Sample.texts))).
Defined.

(** After 101 distinct texts the store is full and the first text is gone;
    the second one is now the oldest. *)
Example lru_evicts_oldest :
  let st := (fake_serve Sample.texts (init 0)).2 in
  length Sample.texts = 101 /\
  length (cache st) = 100 /\
  cache_get "a" (cache st) = None /\
  last (cache st).*1 = Some "aa" /\
  length (calls st) = 101.
Proof. vm_compute. repeat split. Qed.

(** When the provider is down the batch route answers 500. *)
Example down_provider_500 :
  (analyze Sample.down_provider Sample.HOTEL_DATA Sample.REVIEWS_DATASET
     Sample.ANOMALOUS_REVIEWS Sample.SIMILARITY_THRESHOLD "hotel_1" (init 0)).1
  = Error500 (ProviderError "connection refused").
Proof. vm_compute. reflexivity. Qed.

End SampleRuns.

(** ** Further properties of the embedding cache *)

Section CacheExtras.

Local Open Scope list_scope.

Context {World : Type}.
Variable provider : string -> World -> result Similarity.Vec * World.

Local Abbreviation cached := (get_cached_embedding provider).
Local Abbreviation run := (serve provider).
Local Abbreviation entries := (list (string * Similarity.Vec)).

Lemma cache_get_remove_ne (key other : string) (c : entries) :
  other <> key -> cache_get other (cache_remove key c) = cache_get other c.
Proof.
  intros Hne. unfold cache_remove. induction c as [|[k v] c IH]; [reflexivity|].
  rewrite filter_cons. simpl. destruct (decide (k <> key)) as [Hk|Hk]; simpl.
  - now rewrite IH.
  - assert (k = key) as -> by (destruct (decide (k = key)); tauto).
    rewrite decide_False by congruence. exact IH.
Qed.

(** A failed request is not remembered: the store is as before, the text is
    still absent from it, and the next request for the same text goes to
    the provider again. *)
Theorem failed_request_not_cached (text : string) (st : State) e st' :
  cached text st = (Raise e, st') ->
  cache st' = cache st /\
  cache_get text (cache st') = None /\
  calls st' = text :: calls st /\
  calls (cached text st').2 = text :: text :: calls st.
Proof.
  intros Hrun.
  destruct (cached_cases provider text st)
    as [(v & _ & Heq) | [(Hget & e' & w' & _ & Heq) | (_ & v & w' & _ & Heq)]];
    rewrite Heq in Hrun; try discriminate.
  injection Hrun as <- <-. simpl. repeat split; try assumption.
  destruct (cached_cases provider text
              {| cache := cache st; world := w'; calls := text :: calls st |})
    as [(v & Hget' & _) | [(_ & e2 & w2 & _ & ->) | (_ & v & w2 & _ & ->)]];
    simpl in *; [congruence|reflexivity|reflexivity].
Qed.

Lemma cached_hit (text : string) (st : State) (v : Similarity.Vec) :
  cache_get text (cache st) = Some v ->
  exists st',
    cached text st = (Ok v, st') /\
    cache st' = (text, v) :: cache_remove text (cache st) /\
    calls st' = calls st /\
    world st' = world st /\
    (forall key, cache_get key (cache st') = cache_get key (cache st)).
Proof.
  intros Hget.
  destruct (cached_cases provider text st)
    as [(v' & Hget' & ->) | [(Hnone & _) | (Hnone & _)]]; try congruence.
  assert (v' = v) as -> by congruence.
  eexists. split; [reflexivity|]. simpl. repeat split.
  intros key. destruct (decide (text = key)) as [->|Hne]; [now rewrite Hget|].
  now apply cache_get_remove_ne.
Qed.

(** A request for a stored text is answered from the store: the stored
    vector is returned, the provider is not called, the world is untouched
    and every text keeps the vector it had. *)
Theorem hit_leaves_store (text : string) (st : State) (v : Similarity.Vec) :
  cache_get text (cache st) = Some v ->
  (cached text st).1 = Ok v /\
  calls (cached text st).2 = calls st /\
  world (cached text st).2 = world st /\
  (forall key, cache_get key (cache (cached text st).2)
               = cache_get key (cache st)) /\
  length (cache (cached text st).2) <= length (cache st).
Proof.
  intros Hget.
  destruct (cached_hit text st v Hget) as (st' & -> & Hc & Hcalls & Hw & Hlook).
  simpl. repeat split; try assumption.
  rewrite Hc.
  apply cache_get_Some_elem, list_elem_of_split in Hget as (l1 & l2 & ->).
  unfold cache_remove. rewrite filter_app, filter_cons_False by (simpl; tauto).
  simpl. rewrite !length_app. simpl.
  pose proof (length_filter (fun p : string * Similarity.Vec => p.1 <> text) l1).
  pose proof (length_filter (fun p : string * Similarity.Vec => p.1 <> text) l2).
  lia.
Qed.

(** After a served request the text is stored with the vector returned. *)
Lemma cached_then_stored (text : string) (st : State) v st' :
  cached text st = (Ok v, st') -> cache_get text (cache st') = Some v.
Proof.
  intros Hrun.
  destruct (cached_cases provider text st)
    as [(v' & _ & Heq) | [(_ & e & w' & _ & Heq) | (_ & v' & w' & _ & Heq)]];
    rewrite Heq in Hrun; try discriminate;
    injection Hrun as <- <-; simpl; now rewrite decide_True.
Qed.

Lemma cached_keys_calls (text : string) (st : State) :
  (forall k, k ∈ (cache st).*1 -> k ∈ calls st) ->
  forall k, k ∈ (cache (cached text st).2).*1 -> k ∈ calls (cached text st).2.
Proof.
  intros Hinv k.
  destruct (cached_cases provider text st)
    as [(v & Hget & ->) | [(_ & e & w' & _ & ->) | (_ & v & w' & _ & ->)]]; simpl.
  - rewrite cache_remove_keys, elem_of_cons, list_elem_of_filter.
    intros [->|[_ Hk]]; [|now apply Hinv].
    apply Hinv. apply cache_get_Some_elem in Hget.
    apply list_elem_of_fmap. now exists (text, v).
  - intros Hk. apply list_elem_of_further. now apply Hinv.
  - rewrite !elem_of_cons. intros [->|Hk]; [now left|]. right. apply Hinv.
    exact (sublist_subseteq _ _ (fmap_sublist fst _ _ (kept_on_insert_sublist _))
             k Hk).
Qed.

Lemma cached_calls_requested (text : string) (st : State) :
  calls (cached text st).2 = calls st \/
  calls (cached text st).2 = text :: calls st.
Proof.
  destruct (cached_cases provider text st)
    as [(v & _ & ->) | [(_ & e & w' & _ & ->) | (_ & v & w' & _ & ->)]];
    simpl; auto.
Qed.

Lemma serve_invariants (reqs : list string) (st : State) :
  (forall k, k ∈ (cache st).*1 -> k ∈ calls st) ->
  (forall k, k ∈ (cache (run reqs st).2).*1 -> k ∈ calls (run reqs st).2) /\
  exists new,
    calls (run reqs st).2 = new ++ calls st /\
    reverse new `sublist_of` reqs.
Proof.
  revert st. induction reqs as [|text reqs IH]; intros st Hinv.
  - simpl. split; [exact Hinv|]. exists []. split; [reflexivity|constructor].
  - simpl. pose proof (cached_keys_calls text st Hinv) as Hinv1.
    pose proof (cached_calls_requested text st) as Hcalls.
    destruct (cached text st) as [r st1]. simpl in *.
    destruct (IH st1 Hinv1) as [Hkeys (new & Hnew & Hsub)].
    destruct (run reqs st1) as [tr st2]. simpl in *.
    split; [exact Hkeys|].
    destruct Hcalls as [Heq|Heq]; rewrite Hnew, Heq.
    + exists new. split; [reflexivity|]. now apply sublist_cons.
    + exists (new ++ [text]). split; [now rewrite <- app_assoc|].
      rewrite reverse_app. simpl. now apply sublist_skip.
Qed.

(** Whatever requests the process has served since its start: no text is
    stored twice, every stored text was fetched from the provider, and the
    provider was called only for requested texts, in the order of the
    requests and at most once per request. *)
Theorem served_store_invariants (w : World) (reqs : list string) :
  NoDup (cache (run reqs (init w)).2).*1 /\
  (forall k, k ∈ (cache (run reqs (init w)).2).*1 ->
             k ∈ calls (run reqs (init w)).2) /\
  reverse (calls (run reqs (init w)).2) `sublist_of` reqs /\
  length (calls (run reqs (init w)).2) <= length reqs.
Proof.
  destruct (serve_invariants reqs (init w)) as [Hkeys (new & Hnew & Hsub)].
  { simpl. intros k Hk. now apply elem_of_nil in Hk. }
  destruct (run reqs (init w)) as [tr st] eqn:Hrun. simpl in *.
  rewrite app_nil_r in Hnew. subst new.
  split; [|split; [exact Hkeys|split; [exact Hsub|]]].
  - eapply lru_of_NoDup, serve_lru; [apply init_lru|exact Hrun].
  - rewrite <- length_reverse. now apply sublist_length.
Qed.

Lemma serve_texts (reqs : list string) (st : State) :
  (run reqs st).1.*1 = reqs.
Proof.
  revert st. induction reqs as [|text reqs IH]; intros st; [reflexivity|].
  simpl. destruct (cached text st) as [r st1]. specialize (IH st1).
  destruct (run reqs st1) as [tr st2]. simpl in *. f_equal. exact IH.
Qed.

Lemma served_acc_all_ok (tr : list (string * result Similarity.Vec))
    (h : list string) :
  Forall (fun p => is_ok p.2 = true) tr ->
  served_acc tr h = reverse tr.*1 ++ h.
Proof.
  intros Hall. revert h. induction Hall as [|[text r] tr Hok _ IH]; intros h.
  - reflexivity.
  - simpl in Hok. cbn [served_acc]. rewrite Hok, IH, fmap_cons, reverse_cons.
    now rewrite <- app_assoc.
Qed.

Lemma recency_app_prefix (a b : list string) :
  exists rest, recency (a ++ b) = recency a ++ rest.
Proof.
  induction a as [|x a [rest IH]]; simpl.
  - now exists (recency b).
  - exists (filter (fun k => k <> x) rest). now rewrite IH, filter_app.
Qed.

Lemma recency_elem (x : string) (a : list string) : x ∈ recency a <-> x ∈ a.
Proof.
  induction a as [|y a IH]; simpl; [reflexivity|].
  rewrite !elem_of_cons, list_elem_of_filter, IH.
  destruct (decide (x = y)); tauto.
Qed.

Lemma recency_length (a : list string) :
  length (recency a) = size (list_to_set a : gset string).
Proof.
  rewrite <- (size_list_to_set (C:=gset string) (recency a))
    by apply recency_NoDup.
  f_equal. apply set_eq. intros x.
  now rewrite !elem_of_list_to_set, recency_elem.
Qed.

(** The capacity is reached exactly: once 100 distinct other texts have been
    served after a text, that text is no longer stored, and the next
    request for it goes to the provider. *)
Theorem evicted_after_capacity (w : World) (history reqs : list string)
    (tr : list (string * result Similarity.Vec)) (st : State) (t : string) :
  run reqs (run history (init w)).2 = (tr, st) ->
  Forall (fun p => is_ok p.2 = true) tr ->
  t ∉ reqs ->
  maxsize <= size (list_to_set reqs : gset string) ->
  cache_get t (cache st) = None /\
  calls (cached t st).2 = t :: calls st.
Proof.
  intros Hrun Hok Hnot Hsize.
  destruct (run history (init w)) as [tr0 st0] eqn:Hhist. simpl in Hrun.
  pose proof (serve_lru _ _ _ _ _ _ (serve_lru _ _ _ _ _ _ (init_lru w) Hhist) Hrun)
    as Hlru.
  unfold lru_of in Hlru. rewrite (served_acc_all_ok _ _ Hok) in Hlru.
  pose proof (serve_texts reqs st0) as Htexts. rewrite Hrun in Htexts.
  simpl in Htexts. rewrite Htexts in Hlru.
  destruct (recency_app_prefix (reverse reqs) (served_acc tr0 [])) as [rest Hrest].
  rewrite Hrest, take_app_le in Hlru.
  2:{ rewrite recency_length. etransitivity; [exact Hsize|].
      apply Nat.eq_le_incl. f_equal. apply set_eq. intros x.
      now rewrite !elem_of_list_to_set, elem_of_reverse. }
  assert (Hnone : cache_get t (cache st) = None).
  { apply (proj2 (cache_get_None provider t (cache st))).
    rewrite Hlru. intros Hin. apply Hnot.
    apply (subseteq_take maxsize) in Hin.
    now rewrite recency_elem, elem_of_reverse in Hin. }
  split; [exact Hnone|].
  destruct (cached_cases provider t st)
    as [(v & Hget & _) | [(_ & e & w' & _ & ->) | (_ & v & w' & _ & ->)]];
    [congruence|reflexivity|reflexivity].
Qed.

End CacheExtras.

Lemma failed_request_not_cached_witness :
  calls (get_cached_embedding Sample.down_provider "a"
           (get_cached_embedding Sample.down_provider "a" (init 0)).2).2
  = ["a"; "a"].
Proof.
  apply (failed_request_not_cached Sample.down_provider "a" (init 0)
           (ProviderError "connection refused")
           (get_cached_embedding Sample.down_provider "a" (init 0)).2).
  reflexivity.
Defined.

Lemma hit_leaves_store_witness :
  calls (get_cached_embedding Sample.fake_provider "a"
           (get_cached_embedding Sample.fake_provider "a" (init 0)).2).2
  = ["a"].
Proof.
  apply (hit_leaves_store Sample.fake_provider "a"
           (get_cached_embedding Sample.fake_provider "a" (init 0)).2
           [1%float; 1%float]).
  reflexivity.
Defined.

Lemma evicted_after_capacity_witness :
  cache_get "b"
    (cache (serve Sample.fake_provider Sample.texts
              (serve Sample.fake_provider ["b"] (init 0)).2).2) = None.
Proof.
  eapply (evicted_after_capacity Sample.fake_provider 0 ["b"] Sample.texts).
  - apply surjective_pairing.
  - refine (bool_decide_unpack _ _). vm_compute. exact I.
  - refine (bool_decide_unpack _ _). vm_compute. exact I.
  - vm_compute. lia.
Defined.

(** ** Further properties of the orchestrator *)

Section OrchestratorExtras.

Local Open Scope list_scope.

Context {World : Type}.
Variable provider : string -> World -> result Similarity.Vec * World.
Variable HOTEL_DATA : gmap string Hotel.
Variable REVIEWS_DATASET ANOMALOUS_REVIEWS : gmap string (list string).
Variable SIMILARITY_THRESHOLD : float.

Local Abbreviation cached := (get_cached_embedding provider).
Local Abbreviation run := (serve provider).
Local Abbreviation loop := (analyze_reviews provider SIMILARITY_THRESHOLD).
Local Abbreviation custom :=
  (custom_review provider HOTEL_DATA SIMILARITY_THRESHOLD).
Local Abbreviation batch :=
  (analyze_hotel_reviews provider HOTEL_DATA REVIEWS_DATASET
     ANOMALOUS_REVIEWS SIMILARITY_THRESHOLD).
Local Abbreviation texts_of := (batch_texts REVIEWS_DATASET ANOMALOUS_REVIEWS).

Lemma serve_app (a b : list string) (st : State) tr1 s1 tr2 s2 :
  run a st = (tr1, s1) -> run b s1 = (tr2, s2) ->
  run (a ++ b) st = (tr1 ++ tr2, s2).
Proof.
  revert st tr1. induction a as [|x a IH]; intros st tr1; simpl.
  - now intros [= <- <-].
  - destruct (cached x st) as [r sx]. destruct (run a sx) as [tra sa] eqn:Ha.
    intros [= <- <-] Hb. now rewrite (IH _ _ Ha Hb).
Qed.

(** A successful loop is the serving of its reviews, every request
    answered, with one scored entry per request. *)
Lemma analyze_reviews_trace hotel_embedding (reviews : list string)
    (st : State) results st' :
  loop hotel_embedding reviews st = (Ok results, st') ->
  exists tr, run reviews st = (tr, st') /\
    Forall2 (scored hotel_embedding SIMILARITY_THRESHOLD) results tr.
Proof.
  revert st results st'.
  induction reviews as [|rv rest IH]; intros st results st'; simpl.
  - intros [= <- <-]. exists []. split; [reflexivity|constructor].
  - destruct (cached rv st) as [[v|e] st1]; [|discriminate].
    destruct (Similarity.cosine_similarity hotel_embedding v) as [sim|e] eqn:Hsim;
      [|discriminate].
    destruct (loop hotel_embedding rest st1) as [[rs|e] st2] eqn:Hrest;
      [|discriminate].
    intros [= <- <-]. destruct (IH _ _ _ Hrest) as (tr & -> & Hall).
    eexists. split; [reflexivity|]. constructor; [|exact Hall].
    exists v. simpl. auto.
Qed.

(** The loop raises exactly when some review fails after the reviews before
    it went through, whether its embedding raises or its similarity does;
    it then stops at once: the state is the one that request left, the
    reviews after it are not requested and the results gathered so far are
    dropped. *)
Theorem analyze_reviews_fail_fast hotel_embedding (reviews : list string)
    (st : State) e st2 :
  loop hotel_embedding reviews st = (Raise e, st2) <->
  exists done_ rv rest results st1,
    reviews = done_ ++ rv :: rest /\
    loop hotel_embedding done_ st = (Ok results, st1) /\
    (cached rv st1 = (Raise e, st2) \/
     exists v, cached rv st1 = (Ok v, st2) /\
               Similarity.cosine_similarity hotel_embedding v = Raise e).
Proof.
  split.
  - revert st. induction reviews as [|rv rest IH]; intros st; simpl;
      [discriminate|].
    destruct (cached rv st) as [[v|e'] s1] eqn:Hrv.
    2:{ intros [= <- <-]. exists [], rv, rest, [], st. simpl. auto. }
    destruct (Similarity.cosine_similarity hotel_embedding v) as [sim|e'] eqn:Hsim.
    2:{ intros [= <- <-]. exists [], rv, rest, [], st. simpl. eauto 6. }
    destruct (loop hotel_embedding rest s1) as [[rs|e'] s2] eqn:Hrest;
      [discriminate|].
    intros [= <- <-].
    destruct (IH s1 Hrest) as (done_ & rv' & rest' & results & st1 & -> & Hdone & Hfail).
    exists (rv :: done_), rv', rest'. eexists. exists st1.
    split; [reflexivity|]. split; [|exact Hfail].
    simpl. now rewrite Hrv, Hsim, Hdone.
  - intros (done_ & rv & rest & results & st1 & -> & Hdone & Hfail).
    revert st results Hdone.
    induction done_ as [|d done_ IH]; intros st results; simpl.
    + intros [= <- <-]. destruct Hfail as [-> | (v & -> & ->)]; reflexivity.
    + destruct (cached d st) as [[v|e'] sd]; [|discriminate].
      destruct (Similarity.cosine_similarity hotel_embedding v); [|discriminate].
      destruct (loop hotel_embedding done_ sd) as [[rs|e'] sr] eqn:Hdone;
        [|discriminate].
      intros [= <- <-]. now rewrite (IH _ _ Hdone).
Qed.

Lemma batch_requests_trace (hotel_id : string) (h : Hotel) (st : State)
    rep st' :
  HOTEL_DATA !! hotel_id = Some h ->
  batch hotel_id st = (Ok (Some rep), st') ->
  exists hotel_embedding tr_normal tr_anomalous,
    run (texts_of hotel_id h) st
      = ((analyze_hotel_text h, Ok hotel_embedding) :: tr_normal ++ tr_anomalous,
         st') /\
    Forall2 (scored hotel_embedding SIMILARITY_THRESHOLD)
      (normal_reviews rep) tr_normal /\
    Forall2 (scored hotel_embedding SIMILARITY_THRESHOLD)
      (anomalous_reviews rep) tr_anomalous /\
    tr_normal.*1 = default [] (REVIEWS_DATASET !! hotel_id) /\
    tr_anomalous.*1 = default [] (ANOMALOUS_REVIEWS !! hotel_id).
Proof.
  intros Hh Hrun.
  destruct (batch_inv _ _ _ _ _ _ _ _ _ Hrun)
    as (h' & Hh' & _ & _ & _ & he & st1 & st2 & Hhe & Hn & Ha).
  assert (h' = h) as -> by congruence.
  apply analyze_reviews_trace in Hn as (trn & Hn & Hsn).
  apply analyze_reviews_trace in Ha as (tra & Ha & Hsa).
  exists he, trn, tra. split; [|split; [exact Hsn|split; [exact Hsa|split]]].
  - unfold batch_texts. simpl. rewrite Hhe.
    now rewrite (serve_app _ _ _ _ _ _ _ Hn Ha).
  - pose proof (serve_texts provider (default [] (REVIEWS_DATASET !! hotel_id)) st1)
      as Ht. now rewrite Hn in Ht.
  - pose proof (serve_texts provider (default [] (ANOMALOUS_REVIEWS !! hotel_id)) st2)
      as Ht. now rewrite Ha in Ht.
Qed.

(** A successful batch analysis is the serving of the hotel text, then the
    normal reviews, then the anomalous reviews, each in the order of its
    list and every request answered; the entries of the report are the
    similarities of the vectors served to the vector of the hotel text. *)
Theorem batch_requests_in_order (hotel_id : string) (h : Hotel) (st : State)
    rep st' :
  HOTEL_DATA !! hotel_id = Some h ->
  batch hotel_id st = (Ok (Some rep), st') ->
  exists hotel_embedding tr_normal tr_anomalous,
    run (texts_of hotel_id h) st
      = ((analyze_hotel_text h, Ok hotel_embedding) :: tr_normal ++ tr_anomalous,
         st') /\
    Forall2 (scored hotel_embedding SIMILARITY_THRESHOLD)
      (normal_reviews rep) tr_normal /\
    Forall2 (scored hotel_embedding SIMILARITY_THRESHOLD)
      (anomalous_reviews rep) tr_anomalous.
Proof.
  intros Hh Hrun.
  destruct (batch_requests_trace hotel_id h st rep st' Hh Hrun)
    as (he & trn & tra & Hserve & Hn & Ha & _).
  now exists he, trn, tra.
Qed.

(** The dictionary of a custom review is built from the two vectors
    served for the hotel text and for the review, in this order. *)
Lemma custom_review_payload_trace (h : Hotel) (review_text : string)
    (st : State) res st' :
  custom_review_payload provider SIMILARITY_THRESHOLD h review_text st
    = (Ok res, st') ->
  exists hotel_embedding review_embedding,
    run [custom_hotel_text h; review_text] st
      = ([(custom_hotel_text h, Ok hotel_embedding);
          (review_text, Ok review_embedding)], st') /\
    Similarity.cosine_similarity hotel_embedding review_embedding
      = Ok (c_similarity res) /\
    res = {| c_hotel := h; c_review := review_text;
             c_similarity := c_similarity res;
             c_needs_check := (c_similarity res <? SIMILARITY_THRESHOLD)%float;
             c_threshold := SIMILARITY_THRESHOLD |}.
Proof.
  unfold custom_review_payload. simpl.
  destruct (cached (custom_hotel_text h) st) as [[he|e] st1]; [|discriminate].
  destruct (cached review_text st1) as [[re|e] st2]; [|discriminate].
  destruct (Similarity.cosine_similarity he re) as [sim|e] eqn:Hsim;
    [|discriminate].
  intros [= <- <-]. exists he, re. simpl. auto.
Qed.

(** C2. In a batch report and in the dictionary of a custom review,
    [similarity] is the cosine similarity of the vector served for the
    hotel text and the vector served for the review, and [needs_check] is
    true exactly when this similarity is below the configured threshold
    (which is also the threshold reported); it is false when the two are
    equal. *)
Theorem needs_check_iff_below_threshold :
  (forall hotel_id (st : State) rep st',
     batch hotel_id st = (Ok (Some rep), st') ->
     threshold rep = SIMILARITY_THRESHOLD /\
     exists h hotel_embedding tr,
       HOTEL_DATA !! hotel_id = Some h /\
       run (texts_of hotel_id h) st
         = ((analyze_hotel_text h, Ok hotel_embedding) :: tr, st') /\
       Forall2 (fun r p =>
                  scored hotel_embedding SIMILARITY_THRESHOLD r p /\
                  flag_agrees (similarity r) SIMILARITY_THRESHOLD
                    (needs_check r))
         (normal_reviews rep ++ anomalous_reviews rep) tr) /\
  (forall h review_text (st : State) res st',
     custom_review_payload provider SIMILARITY_THRESHOLD h review_text st
       = (Ok res, st') ->
     c_threshold res = SIMILARITY_THRESHOLD /\
     c_review res = review_text /\
     exists hotel_embedding review_embedding,
       run [custom_hotel_text h; review_text] st
         = ([(custom_hotel_text h, Ok hotel_embedding);
             (review_text, Ok review_embedding)], st') /\
       Similarity.cosine_similarity hotel_embedding review_embedding
         = Ok (c_similarity res) /\
       flag_agrees (c_similarity res) SIMILARITY_THRESHOLD
         (c_needs_check res)).
Proof.
  split.
  - intros hotel_id st rep st' Hrun.
    destruct (batch_inv _ _ _ _ _ _ _ _ _ Hrun)
      as (h & Hh & _ & _ & Hthr & _).
    split; [exact Hthr|].
    destruct (batch_requests_trace hotel_id h st rep st' Hh Hrun)
      as (he & trn & tra & Hserve & Hn & Ha & _).
    exists h, he, (trn ++ tra). split; [exact Hh|]. split; [exact Hserve|].
    apply Forall2_app; (eapply Forall2_impl; [eassumption|]);
      intros r p Hs; (split; [exact Hs|]);
      destruct Hs as (v & _ & _ & ->); apply flag_agrees_ltb.
  - intros h review_text st res st' Hrun.
    destruct (custom_review_payload_trace h review_text st res st' Hrun)
      as (he & re & Hserve & Hsim & Hres).
    assert (c_threshold res = SIMILARITY_THRESHOLD /\
            c_review res = review_text /\
            c_needs_check res = (c_similarity res <? SIMILARITY_THRESHOLD)%float)
      as (Hthr & Hrev & Hflag) by (rewrite Hres; simpl; auto).
    split; [exact Hthr|]. split; [exact Hrev|].
    exists he, re. split; [exact Hserve|]. split; [exact Hsim|].
    rewrite Hflag. apply flag_agrees_ltb.
Qed.

Lemma analyze_reviews_calls_sublist hotel_embedding (reviews : list string)
    (st : State) :
  exists new,
    calls (loop hotel_embedding reviews st).2 = new ++ calls st /\
    reverse new `sublist_of` reviews.
Proof.
  revert st. induction reviews as [|rv rest IH]; intros st; simpl.
  - exists []. split; [reflexivity|constructor].
  - assert (exists new1, calls (cached rv st).2 = new1 ++ calls st /\
                         reverse new1 `sublist_of` [rv]) as (new1 & Hnew1 & Hsub1).
    { destruct (cached_calls_requested provider rv st) as [-> | ->].
      - exists []. split; [reflexivity|]. apply sublist_nil_l.
      - exists [rv]. split; reflexivity. }
    assert (forall new2 (s : @State World),
              calls s = new2 ++ calls (cached rv st).2 ->
              reverse new2 `sublist_of` rest ->
              exists new, calls s = new ++ calls st /\
                          reverse new `sublist_of` rv :: rest) as Hjoin.
    { intros new2 s Hs Hsub2. exists (new2 ++ new1).
      split; [now rewrite Hs, Hnew1, app_assoc|].
      rewrite reverse_app. change (rv :: rest) with ([rv] ++ rest).
      now apply sublist_app. }
    destruct (cached rv st) as [[v|e] st1]; simpl in *.
    2:{ apply (Hjoin [] st1); [reflexivity|apply sublist_nil_l]. }
    destruct (Similarity.cosine_similarity hotel_embedding v) as [sim|e].
    2:{ apply (Hjoin [] st1); [reflexivity|apply sublist_nil_l]. }
    destruct (IH st1) as (new2 & Hnew2 & Hsub2).
    destruct (loop hotel_embedding rest st1) as [[rs|e] st2]; simpl in *;
      now apply (Hjoin new2 st2).
Qed.

(** Whatever its outcome, the batch analysis calls the provider only for
    the hotel text and the registered reviews, in that order and at most
    once for each position: at most 1 + n + m calls. *)
Theorem batch_provider_calls (hotel_id : string) (h : Hotel) (st : State) :
  HOTEL_DATA !! hotel_id = Some h ->
  exists new,
    calls (batch hotel_id st).2 = new ++ calls st /\
    reverse new `sublist_of` texts_of hotel_id h /\
    length new <= 1 + length (default [] (REVIEWS_DATASET !! hotel_id))
                    + length (default [] (ANOMALOUS_REVIEWS !! hotel_id)).
Proof.
  intros Hh.
  assert (exists new, calls (batch hotel_id st).2 = new ++ calls st /\
                      reverse new `sublist_of` texts_of hotel_id h)
    as (new & Hnew & Hsub).
  { unfold analyze_hotel_reviews, batch_texts. rewrite Hh.
    set (normal := default [] (REVIEWS_DATASET !! hotel_id)).
    set (anomalous := default [] (ANOMALOUS_REVIEWS !! hotel_id)).
    set (text := analyze_hotel_text h).
    change (text :: normal ++ anomalous) with ([text] ++ normal ++ anomalous).
    assert (exists new0, calls (cached text st).2 = new0 ++ calls st /\
                         reverse new0 `sublist_of` [text])
      as (new0 & Hnew0 & Hsub0).
    { destruct (cached_calls_requested provider text st) as [-> | ->].
      - exists []. split; [reflexivity|]. apply sublist_nil_l.
      - exists [text]. split; reflexivity. }
    destruct (cached text st) as [[he|e] st1]; cbn [snd] in *.
    2:{ exists new0. split; [exact Hnew0|].
        rewrite <- (app_nil_r (reverse new0)).
        apply sublist_app; [exact Hsub0|apply sublist_nil_l]. }
    destruct (analyze_reviews_calls_sublist he normal st1)
      as (new1 & Hnew1 & Hsub1).
    destruct (loop he normal st1) as [[ns|e] st2]; cbn [snd] in *.
    2:{ exists (new1 ++ new0). split; [now rewrite Hnew1, Hnew0, app_assoc|].
        rewrite reverse_app. apply sublist_app; [exact Hsub0|].
        rewrite <- (app_nil_r (reverse new1)).
        apply sublist_app; [exact Hsub1|apply sublist_nil_l]. }
    destruct (analyze_reviews_calls_sublist he anomalous st2)
      as (new2 & Hnew2 & Hsub2).
    exists (new2 ++ new1 ++ new0). split.
    - destruct (loop he anomalous st2) as [[ans|e] st3];
        cbn [snd] in *; now rewrite Hnew2, Hnew1, Hnew0, !app_assoc.
    - rewrite !reverse_app, <- app_assoc.
      apply sublist_app; [exact Hsub0|]. now apply sublist_app. }
  exists new. split; [exact Hnew|]. split; [exact Hsub|].
  apply sublist_length in Hsub. rewrite length_reverse in Hsub.
  unfold batch_texts in Hsub. simpl in Hsub. rewrite length_app in Hsub. lia.
Qed.

Lemma cached_NoDup (text : string) (st : State) :
  NoDup (cache st).*1 -> NoDup (cache (cached text st).2).*1.
Proof.
  intros Hnd.
  destruct (cached_cases provider text st)
    as [(v & _ & ->) | [(_ & e & w' & _ & ->) | (Hget & v & w' & _ & ->)]];
    simpl; [| exact Hnd |].
  - rewrite cache_remove_keys. apply NoDup_cons. split.
    + rewrite list_elem_of_filter. tauto.
    + now apply NoDup_filter.
  - apply (cache_get_None provider) in Hget. apply NoDup_cons. split.
    + intros Hin. apply Hget.
      exact (sublist_subseteq _ _
               (fmap_sublist fst _ _ (kept_on_insert_sublist _)) text Hin).
    + eapply sublist_NoDup; [exact Hnd|].
      apply fmap_sublist, kept_on_insert_sublist.
Qed.

Lemma serve_NoDup (reqs : list string) (st : State) :
  NoDup (cache st).*1 -> NoDup (cache (run reqs st).2).*1.
Proof.
  revert st. induction reqs as [|r reqs IH]; intros st Hnd; [exact Hnd|].
  simpl. pose proof (cached_NoDup r st Hnd) as Hnd1.
  destruct (cached r st) as [res st1]. specialize (IH st1 Hnd1).
  now destruct (run reqs st1).
Qed.

(** A stored text stays stored, with its vector, while the texts in front
    of it and the requested ones are fewer than the capacity. *)
Lemma serve_keeps_stored (t : string) (v : Similarity.Vec)
    (reqs : list string) :
  forall (st : State) (pre post : list (string * Similarity.Vec)),
    NoDup (cache st).*1 ->
    cache st = pre ++ (t, v) :: post ->
    size (list_to_set pre.*1 ∪ list_to_set reqs : gset string) < maxsize ->
    cache_get t (cache (run reqs st).2) = Some v.
Proof.
  induction reqs as [|r reqs IH]; intros st pre post Hnd Hc Hsize.
  - simpl. rewrite Hc. rewrite Hc, fmap_app, fmap_cons in Hnd.
    apply NoDup_app in Hnd as (_ & Hdisj & _).
    rewrite cache_get_app_notin.
    + simpl. now rewrite decide_True.
    + intros Hin. apply (Hdisj _ Hin). apply list_elem_of_here.
  - simpl. destruct (cached r st) as [res st1] eqn:Hstep.
    assert (size (list_to_set pre.*1 ∪ {[r]} : gset string) < maxsize) as Hsize1.
    { eapply Nat.le_lt_trans; [|exact Hsize].
      apply subseteq_size. simpl. set_solver. }
    destruct (cached_keeps provider t v r st res st1 pre post Hnd Hc Hsize1 Hstep)
      as (Hnd1 & (pre1 & post1 & Hc1 & Hsub) & _).
    assert (size (list_to_set pre1.*1 ∪ list_to_set reqs : gset string) < maxsize)
      as Hsize2.
    { eapply Nat.le_lt_trans; [|exact Hsize].
      apply subseteq_size. simpl. set_solver. }
    specialize (IH st1 pre1 post1 Hnd1 Hc1 Hsize2).
    now destruct (run reqs st1).
Qed.

Lemma cached_front (text : string) (st : State) v st' :
  cached text st = (Ok v, st') -> exists post, cache st' = [] ++ (text, v) :: post.
Proof.
  intros Hrun.
  destruct (cached_cases provider text st)
    as [(v' & _ & Heq) | [(_ & e & w' & _ & Heq) | (_ & v' & w' & _ & Heq)]];
    rewrite Heq in Hrun; try discriminate;
    injection Hrun as <- <-; simpl; eauto.
Qed.

(** When fewer than 100 distinct texts are served, every vector returned is
    in the store at the end. *)
Lemma serve_stores_all (reqs : list string) :
  forall st : State,
    NoDup (cache st).*1 ->
    size (list_to_set reqs : gset string) < maxsize ->
    forall t v, (t, Ok v) ∈ (run reqs st).1 ->
      cache_get t (cache (run reqs st).2) = Some v.
Proof.
  induction reqs as [|r reqs IH]; intros st Hnd Hsize t v.
  - simpl. intros Hin. now apply elem_of_nil in Hin.
  - simpl. pose proof (cached_NoDup r st Hnd) as Hnd1.
    destruct (cached r st) as [res st1] eqn:Hstep. simpl in Hnd1.
    assert (size (list_to_set reqs : gset string) < maxsize) as Hsize1.
    { eapply Nat.le_lt_trans; [|exact Hsize].
      apply subseteq_size. simpl. set_solver. }
    specialize (IH st1 Hnd1 Hsize1 t v).
    pose proof (fun post Hc => serve_keeps_stored r v reqs st1 [] post Hnd1 Hc)
      as Hkeep.
    destruct (run reqs st1) as [tr st2]. simpl in *.
    rewrite elem_of_cons. intros [[= <- <-]|Hin]; [|now apply IH].
    destruct (cached_front _ _ _ _ Hstep) as [post Hc].
    apply (Hkeep post Hc).
    eapply Nat.le_lt_trans; [|exact Hsize].
    apply subseteq_size. simpl. set_solver.
Qed.

(** Replaying a loop on a store that holds every vector of its first run:
    the same results, from the store alone. *)
Lemma analyze_reviews_replay hotel_embedding (results : list ReviewResult)
    (tr : list (string * result Similarity.Vec)) :
  Forall2 (scored hotel_embedding SIMILARITY_THRESHOLD) results tr ->
  forall st : State,
    (forall t v, (t, Ok v) ∈ tr -> cache_get t (cache st) = Some v) ->
    exists st',
      loop hotel_embedding tr.*1 st = (Ok results, st') /\
      calls st' = calls st /\ world st' = world st /\
      (forall key, cache_get key (cache st') = cache_get key (cache st)).
Proof.
  induction 1 as [|r p results tr (v & -> & Hsim & Hflag) _ IH]; intros st Hall.
  - exists st. simpl. auto.
  - destruct (cached_hit provider (review r) st v) as (s1 & Hhit & _ & Hc1 & Hw1 & Hl1).
    { apply Hall. apply list_elem_of_here. }
    destruct (IH s1) as (s2 & Hrest & Hc2 & Hw2 & Hl2).
    { intros t v' Hin. rewrite Hl1. apply Hall. now apply list_elem_of_further. }
    exists s2. rewrite fmap_cons. simpl. rewrite Hhit, Hsim, Hrest.
    split; [|split; [congruence|split; [congruence|]]].
    + destruct r as [rv sim flag]. simpl in *. now rewrite Hflag.
    + intros key. now rewrite Hl2, Hl1.
Qed.

(** Repeating a successful batch analysis of a hotel with fewer than 100
    distinct texts gives the same report, entirely from the store: the
    provider is not called and the world is untouched. *)
Theorem batch_repeat_from_store (hotel_id : string) (h : Hotel) (st : State)
    rep st1 :
  HOTEL_DATA !! hotel_id = Some h ->
  NoDup (cache st).*1 ->
  size (list_to_set (texts_of hotel_id h) : gset string) < maxsize ->
  batch hotel_id st = (Ok (Some rep), st1) ->
  exists st2,
    batch hotel_id st1 = (Ok (Some rep), st2) /\
    calls st2 = calls st1 /\ world st2 = world st1.
Proof.
  intros Hh Hnd Hsize Hrun.
  destruct (batch_inv _ _ _ _ _ _ _ _ _ Hrun)
    as (h' & Hh' & Hhotel & Htext & Hthr & _).
  assert (h' = h) as -> by congruence.
  destruct (batch_requests_trace hotel_id h st rep st1 Hh Hrun)
    as (he & trn & tra & Hserve & Hn & Ha & Htn & Hta).
  pose proof (serve_stores_all (texts_of hotel_id h) st Hnd Hsize) as Hall.
  rewrite Hserve in Hall. simpl in Hall.
  destruct (cached_hit provider (analyze_hotel_text h) st1 he)
    as (s1 & Hhit & _ & Hc1 & Hw1 & Hl1).
  { apply Hall. apply list_elem_of_here. }
  destruct (analyze_reviews_replay he _ _ Hn s1) as (s2 & Hn2 & Hc2 & Hw2 & Hl2).
  { intros t v Hin. rewrite Hl1. apply Hall.
    apply list_elem_of_further, elem_of_app. now left. }
  destruct (analyze_reviews_replay he _ _ Ha s2) as (s3 & Ha3 & Hc3 & Hw3 & Hl3).
  { intros t v Hin. rewrite Hl2, Hl1. apply Hall.
    apply list_elem_of_further, elem_of_app. now right. }
  rewrite Htn in Hn2. rewrite Hta in Ha3.
  exists s3. unfold analyze_hotel_reviews. rewrite Hh, Hhit, Hn2, Ha3.
  split; [|split; congruence].
  destruct rep. simpl in *. now subst.
Qed.

(** After a successful batch analysis of a hotel with fewer than 100
    distinct texts, a custom-review request for one of its registered
    reviews computes the similarity and the flag of the report, without
    any provider call; the route then answers 500, since [jsonify] refuses
    the dictionary. *)
Theorem custom_review_agrees_with_report (hotel_id : string) (h : Hotel)
    (st : State) rep st1 (r : ReviewResult) :
  HOTEL_DATA !! hotel_id = Some h ->
  NoDup (cache st).*1 ->
  size (list_to_set (texts_of hotel_id h) : gset string) < maxsize ->
  batch hotel_id st = (Ok (Some rep), st1) ->
  r ∈ normal_reviews rep ++ anomalous_reviews rep ->
  hotel_id <> ""%string -> review r <> ""%string ->
  exists st2,
    custom_review_payload provider SIMILARITY_THRESHOLD h (review r) st1 =
      (Ok {| c_hotel := h; c_review := review r;
             c_similarity := similarity r;
             c_needs_check := needs_check r;
             c_threshold := SIMILARITY_THRESHOLD |}, st2) /\
    custom (Some hotel_id) (Some (review r)) st1 = (Error500 TypeError, st2) /\
    calls st2 = calls st1.
Proof.
  intros Hh Hnd Hsize Hrun Hin Hid Htxt.
  destruct (batch_requests_trace hotel_id h st rep st1 Hh Hrun)
    as (he & trn & tra & Hserve & Hn & Ha & _).
  pose proof (serve_stores_all (texts_of hotel_id h) st Hnd Hsize) as Hall.
  rewrite Hserve in Hall. simpl in Hall.
  assert (Forall2 (scored he SIMILARITY_THRESHOLD)
            (normal_reviews rep ++ anomalous_reviews rep) (trn ++ tra)) as Hboth
    by now apply Forall2_app.
  apply list_elem_of_lookup_1 in Hin as [i Hi].
  eapply Forall2_lookup_l in Hi as (p & Hp & Hscored); [|exact Hboth].
  destruct Hscored as (v & -> & Hsim & Hflag).
  destruct (cached_hit provider (analyze_hotel_text h) st1 he)
    as (s1 & Hhit & _ & Hc1 & _ & Hl1).
  { apply Hall. apply list_elem_of_here. }
  destruct (cached_hit provider (review r) s1 v) as (s2 & Hhit2 & _ & Hc2 & _).
  { rewrite Hl1. apply Hall. apply list_elem_of_further.
    eapply list_elem_of_lookup_2. exact Hp. }
  assert (custom_review_payload provider SIMILARITY_THRESHOLD h (review r) st1 =
            (Ok {| c_hotel := h; c_review := review r;
                   c_similarity := similarity r;
                   c_needs_check := needs_check r;
                   c_threshold := SIMILARITY_THRESHOLD |}, s2)) as Hpayload.
  { unfold custom_review_payload.
    change (custom_hotel_text h) with (analyze_hotel_text h).
    now rewrite Hhit, Hhit2, Hsim, Hflag. }
  exists s2. split; [exact Hpayload|]. split; [|congruence].
  unfold custom_review. simpl.
  rewrite !bool_decide_eq_false_2 by assumption. simpl. rewrite Hh.
  unfold custom_review_respond. now rewrite Hpayload.
Qed.

End OrchestratorExtras.

(** ** Further properties of the routes *)

Section RouteExtras.

Local Open Scope list_scope.

Context {World : Type}.
Variable provider : string -> World -> result Similarity.Vec * World.
Variable HOTEL_DATA : gmap string Hotel.
Variable REVIEWS_DATASET ANOMALOUS_REVIEWS : gmap string (list string).
Variable SIMILARITY_THRESHOLD : float.

Variable cached_value :
  Http.json -> @State World -> result Similarity.Vec * @State World.

Local Abbreviation cached := (get_cached_embedding provider).
Local Abbreviation run := (serve provider).
Local Abbreviation custom :=
  (custom_review provider HOTEL_DATA SIMILARITY_THRESHOLD).
Local Abbreviation route :=
  (custom_review_route provider HOTEL_DATA SIMILARITY_THRESHOLD cached_value).
Local Abbreviation batch :=
  (analyze_hotel_reviews provider HOTEL_DATA REVIEWS_DATASET
     ANOMALOUS_REVIEWS SIMILARITY_THRESHOLD).
Local Abbreviation batch_route :=
  (analyze provider HOTEL_DATA REVIEWS_DATASET ANOMALOUS_REVIEWS
     SIMILARITY_THRESHOLD).

Lemma batch_none_iff (hotel_id : string) (st : State) :
  (batch hotel_id st).1 = Ok None <-> HOTEL_DATA !! hotel_id = None.
Proof.
  unfold analyze_hotel_reviews.
  destruct (HOTEL_DATA !! hotel_id) as [h|]; [|tauto].
  destruct (cached (analyze_hotel_text h) st) as [[he|e] st1];
    [|split; discriminate].
  destruct (analyze_reviews provider SIMILARITY_THRESHOLD he
              (default [] (REVIEWS_DATASET !! hotel_id)) st1) as [[ns|e] st2];
    [|split; discriminate].
  destruct (analyze_reviews provider SIMILARITY_THRESHOLD he
              (default [] (ANOMALOUS_REVIEWS !! hotel_id)) st2) as [[ans|e] st3];
    split; discriminate.
Qed.

(** The batch route answers 404 exactly for the ids that are not in
    HOTEL_DATA and 200 exactly when the analysis returns a report without
    reviews, which takes a hotel with no registered review; it answers 500
    with the exception raised when the analysis raises, and 500 with
    [TypeError] for every report that has a review, since [jsonify] refuses
    the flags.  It never answers 400, and it leaves the state the analysis
    leaves. *)
Theorem analyze_route_status (hotel_id : string) (st : State) :
  (status_of (batch_route hotel_id st).1 = 404%Z
     <-> HOTEL_DATA !! hotel_id = None) /\
  (forall rep, (batch_route hotel_id st).1 = Report200 rep
     <-> (batch hotel_id st).1 = Ok (Some rep) /\
         normal_reviews rep = [] /\ anomalous_reviews rep = []) /\
  (status_of (batch_route hotel_id st).1 = 200%Z ->
   default [] (REVIEWS_DATASET !! hotel_id) = [] /\
   default [] (ANOMALOUS_REVIEWS !! hotel_id) = []) /\
  (forall e, (batch_route hotel_id st).1 = Error500 e
     <-> (batch hotel_id st).1 = Raise e \/
         e = TypeError /\
         exists rep, (batch hotel_id st).1 = Ok (Some rep) /\
                     normal_reviews rep ++ anomalous_reviews rep <> []) /\
  status_of (batch_route hotel_id st).1 <> 400%Z /\
  (batch_route hotel_id st).2 = (batch hotel_id st).2.
Proof.
  rewrite <- (batch_none_iff hotel_id st). unfold analyze, jsonify_report.
  destruct (batch hotel_id st) as [[[rep|]|e] st'] eqn:Hrun; simpl.
  - destruct (normal_reviews rep ++ anomalous_reviews rep) as [|r rs] eqn:Hrs;
      simpl.
    + apply app_eq_nil in Hrs as [Hn Ha].
      split; [split; discriminate|].
      split.
      { intros rep'. split.
        - intros [= <-]. auto.
        - intros [[= <-] _]. reflexivity. }
      split.
      { intros _.
        destruct (batch_inv _ _ _ _ _ _ _ _ _ Hrun)
          as (h & _ & _ & _ & _ & he & st1 & st2 & _ & Hln & Hla).
        apply analyze_reviews_results in Hln as [Hln _].
        apply analyze_reviews_results in Hla as [Hla _].
        rewrite Hn in Hln. rewrite Ha in Hla. auto. }
      split.
      { intros e. split; [discriminate|].
        intros [[=] | (_ & rep' & [= <-] & Hne)].
        rewrite Hn, Ha in Hne. now destruct Hne. }
      split; [discriminate|reflexivity].
    + split; [split; discriminate|].
      split.
      { intros rep'. split; [discriminate|].
        intros ([= <-] & Hn & Ha). rewrite Hn, Ha in Hrs. discriminate. }
      split; [discriminate|].
      split.
      { intros e. split.
        - intros [= <-]. right. split; [reflexivity|].
          exists rep. split; [reflexivity|]. rewrite Hrs. discriminate.
        - intros [[=] | (-> & _)]. reflexivity. }
      split; [discriminate|reflexivity].
  - split; [tauto|].
    split; [intros rep'; split; [discriminate|intros ([=] & _)]|].
    split; [discriminate|].
    split.
    { intros e. split; [discriminate|].
      intros [[=] | (_ & rep' & [=] & _)]. }
    split; [discriminate|reflexivity].
  - split; [split; discriminate|].
    split; [intros rep'; split; [discriminate|intros ([=] & _)]|].
    split; [discriminate|].
    split.
    { intros e'. split.
      - intros [= <-]. now left.
      - intros [[= <-] | (_ & rep' & [=] & _)]. reflexivity. }
    split; [discriminate|reflexivity].
Qed.

Lemma custom_invalid (hotel_id review_text : option string) (st : State) :
  hotel_id = None \/ hotel_id = Some ""%string \/
  review_text = None \/ review_text = Some ""%string ->
  custom hotel_id review_text st
    = (Error400 "hotel_id and review_text are required", st).
Proof.
  unfold custom_review.
  intros [-> | [-> | [-> | ->]]]; simpl; rewrite ?orb_true_r; reflexivity.
Qed.

(** Lines 203 to 222 for a text, [jsonify] included: every way out is
    a 500. *)
Lemma custom_review_respond_cases (h : Hotel) (txt : string) (st : State) :
  custom_review_respond provider SIMILARITY_THRESHOLD h txt st =
    match cached (analyze_hotel_text h) st with
    | (Raise e, st1) => (Error500 e, st1)
    | (Ok hotel_embedding, st1) =>
        match cached txt st1 with
        | (Raise e, st2) => (Error500 e, st2)
        | (Ok review_embedding, st2) =>
            match Similarity.cosine_similarity hotel_embedding
                    review_embedding with
            | Raise e => (Error500 e, st2)
            | Ok _ => (Error500 TypeError, st2)
            end
        end
    end.
Proof.
  unfold custom_review_respond, custom_review_payload.
  change (custom_hotel_text h) with (analyze_hotel_text h).
  destruct (cached (analyze_hotel_text h) st) as [[he|e] st1]; [|reflexivity].
  destruct (cached txt st1) as [[re|e] st2]; [|reflexivity].
  now destruct (Similarity.cosine_similarity he re).
Qed.

Lemma custom_valid (id txt : string) (st : State) :
  id <> ""%string -> txt <> ""%string ->
  custom (Some id) (Some txt) st =
    match HOTEL_DATA !! id with
    | None => (Error404 "Hotel not found", st)
    | Some h => custom_review_respond provider SIMILARITY_THRESHOLD h txt st
    end.
Proof.
  intros Hid Htxt. unfold custom_review. simpl.
  now rewrite !bool_decide_eq_false_2 by assumption.
Qed.

Lemma custom_review_respond_500 (h : Hotel) (txt : string) (st : State) :
  exists e,
    (custom_review_respond provider SIMILARITY_THRESHOLD h txt st).1 = Error500 e.
Proof.
  rewrite custom_review_respond_cases.
  destruct (cached (analyze_hotel_text h) st) as [[he|e] st1]; [|now exists e].
  destruct (cached txt st1) as [[re|e] st2]; [|now exists e].
  destruct (Similarity.cosine_similarity he re) as [sim|e];
    [now exists TypeError|now exists e].
Qed.

Lemma custom_review_other_500 (h : Hotel) (v : Http.json) (st : State) :
  exists e,
    (custom_review_other provider cached_value h v st).1 = Error500 e.
Proof.
  unfold custom_review_other.
  destruct (cached (custom_hotel_text h) st) as [[he|e] st1]; [|now exists e].
  assert (exists e,
            (match cached_value v st1 with
             | (Raise e, st2) => (Error500 e, st2)
             | (Ok review_embedding, st2) =>
                 match Similarity.cosine_similarity he review_embedding with
                 | Raise e => (Error500 e, st2)
                 | Ok _ => (Error500 TypeError, st2)
                 end
             end).1 = Error500 e) as Hrest.
  { destruct (cached_value v st1) as [[re|e] st2]; [|now exists e].
    destruct (Similarity.cosine_similarity he re) as [sim|e];
      [now exists TypeError|now exists e]. }
  destruct v; first [exact Hrest | now exists TypeError].
Qed.

(** What the route does with a body that is an object, by the truth values
    of the two fields and the kind of the hotel id. *)
Lemma custom_review_route_cases fields (st : State) :
  (py_truthy (data_get "hotel_id" fields) = false \/
   py_truthy (data_get "review_text" fields) = false ->
   route (GetJsonReturns (Http.JObj fields)) st
     = (Error400 "hotel_id and review_text are required", st)) /\
  (py_truthy (data_get "hotel_id" fields) = true ->
   py_truthy (data_get "review_text" fields) = true ->
   (not_in_table HOTEL_DATA (data_get "hotel_id" fields) ->
    route (GetJsonReturns (Http.JObj fields)) st
      = (Error404 "Hotel not found", st)) /\
   (~ not_in_table HOTEL_DATA (data_get "hotel_id" fields) ->
    exists e, (route (GetJsonReturns (Http.JObj fields)) st).1 = Error500 e)).
Proof.
  unfold custom_review_route.
  generalize (data_get "hotel_id" fields) (data_get "review_text" fields).
  intros hotel_id review_text. split.
  - intros [-> | ->]; simpl; [reflexivity|]. now rewrite orb_true_r.
  - intros -> ->. simpl. split.
    + destruct hotel_id; simpl; intros Hnot;
        first [reflexivity | contradiction | now rewrite Hnot].
    + destruct hotel_id; simpl; intros Hin;
        try (now destruct Hin); try (now exists TypeError).
      destruct (HOTEL_DATA !! s) as [h|]; [|now destruct Hin].
      destruct review_text;
        first [apply custom_review_respond_500 | apply custom_review_other_500].
Qed.

Lemma not_in_table_dec (v : Http.json) :
  not_in_table HOTEL_DATA v \/ ~ not_in_table HOTEL_DATA v.
Proof.
  destruct v; simpl; try (left; exact I); try (right; tauto).
  destruct (HOTEL_DATA !! s); [right; discriminate|now left].
Qed.

(** The custom-review route answers 400 exactly when the body is a JSON
    object in which the hotel id or the review text is absent or false in
    Python's sense (null, false, zero, an empty string, list or object),
    and 404 exactly when the body is an object, both values are true in
    that sense and the hotel id can be hashed and is not a key of
    HOTEL_DATA (a string that is not an id, a number, [true]).  In both
    cases the state is untouched.  Every other request is answered 500. *)
Theorem custom_review_status (req : request_json) (st : State) :
  (status_of (route req st).1 = 400%Z
     <-> exists fields,
           req = GetJsonReturns (Http.JObj fields) /\
           (py_truthy (data_get "hotel_id" fields) = false \/
            py_truthy (data_get "review_text" fields) = false)) /\
  (status_of (route req st).1 = 404%Z
     <-> exists fields,
           req = GetJsonReturns (Http.JObj fields) /\
           py_truthy (data_get "hotel_id" fields) = true /\
           py_truthy (data_get "review_text" fields) = true /\
           not_in_table HOTEL_DATA (data_get "hotel_id" fields)) /\
  (status_of (route req st).1 = 400%Z \/
   status_of (route req st).1 = 404%Z ->
   (route req st).2 = st) /\
  (status_of (route req st).1 <> 400%Z ->
   status_of (route req st).1 <> 404%Z ->
   status_of (route req st).1 = 500%Z).
Proof.
  assert (forall doc, (forall fields, doc <> Http.JObj fields) ->
            route (GetJsonReturns doc) st = (Error500 AttributeError, st))
    as Hother.
  { intros doc Hdoc. destruct doc; try reflexivity. now destruct (Hdoc fields). }
  assert (forall e,
            (route req st).1 = Error500 e ->
            (forall fields,
               req = GetJsonReturns (Http.JObj fields) ->
               py_truthy (data_get "hotel_id" fields) = true /\
               py_truthy (data_get "review_text" fields) = true /\
               ~ not_in_table HOTEL_DATA (data_get "hotel_id" fields)) ->
            (status_of (route req st).1 = 400%Z
               <-> exists fields,
                     req = GetJsonReturns (Http.JObj fields) /\
                     (py_truthy (data_get "hotel_id" fields) = false \/
                      py_truthy (data_get "review_text" fields) = false)) /\
            (status_of (route req st).1 = 404%Z
               <-> exists fields,
                     req = GetJsonReturns (Http.JObj fields) /\
                     py_truthy (data_get "hotel_id" fields) = true /\
                     py_truthy (data_get "review_text" fields) = true /\
                     not_in_table HOTEL_DATA (data_get "hotel_id" fields)) /\
            (status_of (route req st).1 = 400%Z \/
             status_of (route req st).1 = 404%Z ->
             (route req st).2 = st) /\
            (status_of (route req st).1 <> 400%Z ->
             status_of (route req st).1 <> 404%Z ->
             status_of (route req st).1 = 500%Z)) as H500.
  { intros e -> Hobj. simpl. split; [|split; [|split]].
    - split; [discriminate|]. intros (fields & Hreq & Hf).
      destruct (Hobj fields Hreq) as (Hid & Htxt & _).
      destruct Hf; congruence.
    - split; [discriminate|]. intros (fields & Hreq & _ & _ & Hnot).
      destruct (Hobj fields Hreq) as (_ & _ & Hin). now destruct Hin.
    - intros [?|?]; discriminate.
    - reflexivity. }
  destruct req as [e|doc].
  { apply (H500 e); [reflexivity|]. intros fields. discriminate. }
  assert ((exists fields, doc = Http.JObj fields) \/
          forall fields, doc <> Http.JObj fields) as [[fields ->]|Hdoc]
    by (destruct doc; first [left; eexists; reflexivity | right; discriminate]).
  2:{ apply (H500 AttributeError); [now rewrite (Hother doc Hdoc)|].
      intros fields [= ->]. now destruct (Hdoc fields). }
  destruct (custom_review_route_cases fields st) as [H400 Hvalid].
  destruct (py_truthy (data_get "hotel_id" fields)) eqn:Hid.
  2:{ rewrite H400 by auto. simpl. split; [|split; [|split]].
      - split; [|reflexivity]. intros _. exists fields. auto.
      - split; [discriminate|].
        intros (fields' & [= <-] & Hid' & _). congruence.
      - reflexivity.
      - intros H. now destruct H. }
  destruct (py_truthy (data_get "review_text" fields)) eqn:Htxt.
  2:{ rewrite H400 by auto. simpl. split; [|split; [|split]].
      - split; [|reflexivity]. intros _. exists fields. auto.
      - split; [discriminate|].
        intros (fields' & [= <-] & _ & Htxt' & _). congruence.
      - reflexivity.
      - intros H. now destruct H. }
  destruct (Hvalid eq_refl eq_refl) as [H404 Hrest].
  destruct (not_in_table_dec (data_get "hotel_id" fields)) as [Hnot|Hin].
  - rewrite (H404 Hnot). simpl. split; [|split; [|split]].
    + split; [discriminate|].
      intros (fields' & [= <-] & [?|?]); congruence.
    + split; [|reflexivity]. intros _. exists fields. auto.
    + reflexivity.
    + intros _ H. now destruct H.
  - destruct (Hrest Hin) as [e He]. apply (H500 e He).
    intros fields' [= <-]. auto.
Qed.

(** The custom-review route never answers 200.  A valid request for a
    known hotel whose two embeddings are served and whose similarity is
    computed is answered 500 with [TypeError], raised by [jsonify] on the
    flag of the dictionary; the state is the one the two requests left. *)
Theorem custom_review_never_200 :
  (forall req (st : State), status_of (route req st).1 <> 200%Z) /\
  (forall hotel_id review_text (st : State),
     status_of (custom hotel_id review_text st).1 <> 200%Z) /\
  (forall fields id txt h (st : State) res st',
     data_get "hotel_id" fields = Http.JStr id ->
     data_get "review_text" fields = Http.JStr txt ->
     id <> ""%string -> txt <> ""%string ->
     HOTEL_DATA !! id = Some h ->
     custom_review_payload provider SIMILARITY_THRESHOLD h txt st
       = (Ok res, st') ->
     route (GetJsonReturns (Http.JObj fields)) st = (Error500 TypeError, st') /\
     custom (Some id) (Some txt) st = (Error500 TypeError, st')).
Proof.
  assert (forall hotel_id review_text (st : State),
            status_of (custom hotel_id review_text st).1 <> 200%Z) as Hinner.
  { intros hotel_id review_text st. unfold custom_review.
    destruct (py_not hotel_id || py_not review_text); [discriminate|].
    destruct (HOTEL_DATA !! default ""%string hotel_id) as [h|]; [|discriminate].
    destruct (custom_review_respond_500 h (default ""%string review_text) st)
      as [e ->]. discriminate. }
  split; [|split; [exact Hinner|]].
  - intros req st.
    destruct req as [e|doc]; [discriminate|].
    destruct doc; try discriminate.
    destruct (custom_review_route_cases fields st) as [H400 Hvalid].
    destruct (py_truthy (data_get "hotel_id" fields)) eqn:Hid;
      [|rewrite H400 by auto; discriminate].
    destruct (py_truthy (data_get "review_text" fields)) eqn:Htxt;
      [|rewrite H400 by auto; discriminate].
    destruct (Hvalid eq_refl eq_refl) as [H404 Hrest].
    destruct (not_in_table_dec (data_get "hotel_id" fields)) as [Hnot|Hin].
    + rewrite (H404 Hnot). discriminate.
    + destruct (Hrest Hin) as [e ->]. discriminate.
  - intros fields id txt h st res st' Hfid Hftxt Hid Htxt Hh Hpayload.
    assert (custom (Some id) (Some txt) st = (Error500 TypeError, st')) as Hc.
    { rewrite (custom_valid id txt st Hid Htxt), Hh.
      unfold custom_review_respond. now rewrite Hpayload. }
    split; [|exact Hc].
    unfold custom_review_route. rewrite Hfid, Hftxt. simpl.
    rewrite !bool_decide_eq_false_2 by assumption. simpl. rewrite Hh.
    unfold custom_review_respond. now rewrite Hpayload.
Qed.

(** The custom-review route stops at the first failure: when the embedding
    of the hotel text fails, the answer is 500 with that error and the
    review text is not requested.  Whatever the outcome, the provider is
    called at most for the hotel text and then for the review text. *)
Theorem custom_review_fail_fast (id txt : string) (h : Hotel) (st : State) :
  id <> ""%string -> txt <> ""%string -> HOTEL_DATA !! id = Some h ->
  (forall e st1,
     cached (analyze_hotel_text h) st = (Raise e, st1) ->
     custom (Some id) (Some txt) st = (Error500 e, st1)) /\
  exists new,
    calls (custom (Some id) (Some txt) st).2 = new ++ calls st /\
    reverse new `sublist_of` [analyze_hotel_text h; txt].
Proof.
  intros Hid Htxt Hh.
  rewrite (custom_valid id txt st Hid Htxt), Hh, custom_review_respond_cases.
  split; [now intros e st1 ->|].
  set (text := analyze_hotel_text h).
  pose proof (cached_calls_requested provider text st) as Hc1.
  destruct (cached text st) as [[he|e] st1]; simpl in Hc1.
  2:{ simpl. destruct Hc1 as [-> | ->].
      - exists []. split; [reflexivity|apply sublist_nil_l].
      - exists [text]. split; [reflexivity|].
        apply (sublist_app [text] [text] [] [txt]);
          [reflexivity|apply sublist_nil_l]. }
  pose proof (cached_calls_requested provider txt st1) as Hc2.
  assert (exists new, calls (cached txt st1).2 = new ++ calls st /\
                      reverse new `sublist_of` [text; txt])
    as (new & Hnew & Hsub).
  { destruct Hc1 as [H1|H1], Hc2 as [H2|H2]; rewrite H2, H1.
    - exists []. split; [reflexivity|apply sublist_nil_l].
    - exists [txt]. split; [reflexivity|]. apply sublist_cons. reflexivity.
    - exists [text]. split; [reflexivity|].
      apply (sublist_app [text] [text] [] [txt]);
        [reflexivity|apply sublist_nil_l].
    - exists [txt; text]. split; reflexivity. }
  exists new. split; [|exact Hsub].
  destruct (cached txt st1) as [[re|e] st2]; simpl in *; [|exact Hnew].
  now destruct (Similarity.cosine_similarity he re).
Qed.

End RouteExtras.

(** ** Properties of the embedding client *)

Section ClientProperties.

Import Http.

Context {World : Type}.
Variable post : Request -> World -> py_result Response * World.
Variable OPENAI_API_URL OPENAI_API_KEY EMBEDDING_MODEL : string.

Local Abbreviation request :=
  (embedding_request OPENAI_API_URL OPENAI_API_KEY EMBEDDING_MODEL).
Local Abbreviation client :=
  (Http.get_embedding post OPENAI_API_URL OPENAI_API_KEY EMBEDDING_MODEL).

(** The documents in which the path [data], [0], [embedding] leads
    somewhere. *)
Lemma embedding_of_Return (doc v : json) :
  embedding_of doc = Return v <->
  exists fields first items efields,
    doc = JObj fields /\
    dict_get "data" fields = Some (JArr (JObj efields :: items)) /\
    first = JObj efields /\
    dict_get "embedding" efields = Some v.
Proof.
  unfold embedding_of. split.
  - destruct doc as [| | | | |items|fields]; simpl; try discriminate.
    destruct (dict_get "data" fields) as [data|] eqn:Hdata; simpl;
      [|discriminate].
    destruct data as [| | | |s|items|dfields]; simpl; try discriminate.
    + unfold str_getitem. simpl.
      destruct s as [|c s]; simpl; [discriminate|].
      discriminate.
    + unfold list_getitem. destruct items as [|first items]; simpl;
        [discriminate|].
      destruct first as [| | | | | |efields]; simpl; try discriminate.
      destruct (dict_get "embedding" efields) as [x|] eqn:Hemb; [|discriminate].
      intros [= <-]. now exists fields, (JObj efields), items, efields.
  - intros (fields & first & items & efields & -> & Hdata & -> & Hemb).
    simpl. rewrite Hdata. simpl. unfold list_getitem. simpl. now rewrite Hemb.
Qed.

(** [get_embedding] returns a value in exactly one situation: the request
    went through, the status is not a 4xx or 5xx, the body is a JSON object
    whose [data] is a non-empty array whose first element is an object with
    a field [embedding]; the value is that field. *)
Theorem get_embedding_success (text : string) (w : World) (v : json) w' :
  client text w = (Return v, w') <->
  exists response fields items efields,
    post (request text) w = (Return response, w') /\
    ~ (400 <= status_code response < 600)%Z /\
    document response = Some (JObj fields) /\
    dict_get "data" fields = Some (JArr (JObj efields :: items)) /\
    dict_get "embedding" efields = Some v.
Proof.
  unfold Http.get_embedding. split.
  - destruct (post (request text) w) as [[response|e] w1]; [|discriminate].
    unfold raise_for_status, response_json.
    destruct ((400 <=? status_code response) && (status_code response <? 600))%Z
      eqn:Hstatus; simpl; [discriminate|].
    destruct (document response) as [doc|] eqn:Hdoc; simpl; [|discriminate].
    intros [= Hemb <-].
    apply embedding_of_Return in Hemb
      as (fields & first & items & efields & -> & Hdata & _ & Hv).
    exists response, fields, items, efields. repeat split; try assumption.
    intros Hrange. apply andb_false_iff in Hstatus as [H|H];
      [apply Z.leb_gt in H | apply Z.ltb_ge in H]; lia.
  - intros (response & fields & items & efields & -> & Hstatus & Hdoc & Hdata & Hv).
    unfold raise_for_status, response_json. rewrite Hdoc.
    destruct ((400 <=? status_code response) && (status_code response <? 600))%Z
      eqn:Hrange.
    + exfalso. apply Hstatus. apply andb_true_iff in Hrange as [H1 H2].
      apply Z.leb_le in H1. apply Z.ltb_lt in H2. lia.
    + simpl. f_equal. apply embedding_of_Return.
      now exists fields, (JObj efields), items, efields.
Qed.

(** Every failure of [get_embedding] is raised, and tells what failed: the
    exception of the transport; [HTTPError] for a 4xx or 5xx status,
    whatever the body; [JSONDecodeError] for a body that is not JSON;
    [KeyError], [IndexError] or [TypeError] for a document without the
    expected path.  The world is the one the single request left. *)
Theorem get_embedding_failure (text : string) (w : World) (e : py_exn) w' :
  client text w = (Throw e, w') ->
  post (request text) w = (Throw e, w') \/
  exists response,
    post (request text) w = (Return response, w') /\
    (((400 <= status_code response < 600)%Z /\
      e = HTTPError (status_code response)) \/
     (~ (400 <= status_code response < 600)%Z /\
      ((document response = None /\ e = JSONDecodeError) \/
       (exists doc, document response = Some doc /\
                    embedding_of doc = Throw e /\
                    ((exists key, e = KeyError key) \/ e = IndexError \/
                     e = TypeError))))).
Proof.
  unfold Http.get_embedding.
  destruct (post (request text) w) as [[response|e0] w1];
    [|intros [= <- <-]; now left].
  intros H. right. exists response.
  unfold raise_for_status, response_json in H.
  destruct ((400 <=? status_code response) && (status_code response <? 600))%Z
    eqn:Hrange; simpl in H.
  - injection H as <- <-. split; [reflexivity|]. left. split; [|reflexivity].
    apply andb_true_iff in Hrange as [H1 H2].
    apply Z.leb_le in H1. apply Z.ltb_lt in H2. lia.
  - assert (~ (400 <= status_code response < 600)%Z) as Hnot.
    { intros Hr. apply andb_false_iff in Hrange as [H'|H'];
        [apply Z.leb_gt in H' | apply Z.ltb_ge in H']; lia. }
    destruct (document response) as [doc|]; simpl in H.
    + injection H as He <-. split; [reflexivity|]. right. split; [exact Hnot|].
      right. exists doc. split; [reflexivity|]. split; [exact He|].
      revert He. unfold embedding_of.
      destruct doc as [| | | | |items|fields]; simpl;
        try (intros [= <-]; auto).
      destruct (dict_get "data" fields) as [data|]; simpl;
        [|intros [= <-]; eauto].
      destruct data as [| | | |s|items|dfields]; simpl;
        try (intros [= <-]; eauto).
      * unfold str_getitem. simpl. destruct s as [|c s]; simpl;
          intros [= <-]; auto.
      * unfold list_getitem. destruct items as [|first items]; simpl;
          [intros [= <-]; auto|].
        destruct first as [| | | | | |efields]; simpl;
          try (intros [= <-]; auto).
        destruct (dict_get "embedding" efields); [discriminate|].
        intros [= <-]. eauto.
    + injection H as <- <-. split; [reflexivity|]. right. split; [exact Hnot|].
      now left.
Qed.

End ClientProperties.

(** ** The further properties on the sample data *)

Section SampleExtras.

Local Open Scope list_scope.

Local Abbreviation fake_cached := (get_cached_embedding Sample.fake_provider).
Local Abbreviation fake_serve := (serve Sample.fake_provider).
Local Abbreviation fake_batch :=
  (analyze_hotel_reviews Sample.fake_provider Sample.HOTEL_DATA
     Sample.REVIEWS_DATASET Sample.ANOMALOUS_REVIEWS
     Sample.SIMILARITY_THRESHOLD).
Local Abbreviation fake_custom :=
  (custom_review Sample.fake_provider Sample.HOTEL_DATA
     Sample.SIMILARITY_THRESHOLD).
Local Abbreviation sample_texts :=
  (batch_texts Sample.REVIEWS_DATASET Sample.ANOMALOUS_REVIEWS).

Lemma analyze_reviews_fail_fast_witness :
  analyze_reviews Sample.flaky_provider Sample.SIMILARITY_THRESHOLD
    [1%float; 1%float] ["x"; "y"; "z"] (init 1)
  = (Raise (ProviderError "timeout"),
     (get_cached_embedding Sample.flaky_provider "y"
        (get_cached_embedding Sample.flaky_provider "x" (init 1)).2).2).
Proof.
  apply (proj2 (analyze_reviews_fail_fast Sample.flaky_provider
                  Sample.SIMILARITY_THRESHOLD [1%float; 1%float]
                  ["x"; "y"; "z"] (init 1) (ProviderError "timeout") _)).
  exists ["x"], "y"%string, ["z"]. eexists. eexists.
  split; [reflexivity|]. split; [vm_compute; reflexivity|].
  left. vm_compute. reflexivity.
Defined.

Lemma batch_requests_in_order_witness :
  exists rep st' hotel_embedding tr_normal tr_anomalous,
    fake_batch "hotel_3" (init 0) = (Ok (Some rep), st') /\
    fake_serve (sample_texts "hotel_3" Sample.hotel_3) (init 0)
      = ((analyze_hotel_text Sample.hotel_3, Ok hotel_embedding)
           :: tr_normal ++ tr_anomalous, st') /\
    Forall2 (scored hotel_embedding Sample.SIMILARITY_THRESHOLD)
      (normal_reviews rep) tr_normal /\
    Forall2 (scored hotel_embedding Sample.SIMILARITY_THRESHOLD)
      (anomalous_reviews rep) tr_anomalous.
Proof.
  destruct (fake_batch "hotel_3" (init 0)) as [[[rep|]|e] st'] eqn:Hrun;
    [|vm_compute in Hrun; discriminate|vm_compute in Hrun; discriminate].
  destruct (batch_requests_in_order Sample.fake_provider Sample.HOTEL_DATA
              Sample.REVIEWS_DATASET Sample.ANOMALOUS_REVIEWS
              Sample.SIMILARITY_THRESHOLD "hotel_3" Sample.hotel_3 (init 0)
              rep st' eq_refl Hrun) as (he & trn & tra & H1 & H2 & H3).
  now exists rep, st', he, trn, tra.
Defined.

Lemma batch_provider_calls_witness :
  exists new,
    calls (fake_batch "hotel_2" (init 0)).2 = new ++ calls (init 0) /\
    reverse new `sublist_of` sample_texts "hotel_2" Sample.hotel_2 /\
    length new <= 1 + length (default [] (Sample.REVIEWS_DATASET !! "hotel_2"))
                    + length (default [] (Sample.ANOMALOUS_REVIEWS !! "hotel_2")).
Proof.
  apply (batch_provider_calls Sample.fake_provider Sample.HOTEL_DATA
           Sample.REVIEWS_DATASET Sample.ANOMALOUS_REVIEWS
           Sample.SIMILARITY_THRESHOLD "hotel_2" Sample.hotel_2 (init 0)).
  reflexivity.
Defined.

Lemma batch_repeat_from_store_witness :
  exists rep st1 st2,
    fake_batch "hotel_1" (init 0) = (Ok (Some rep), st1) /\
    fake_batch "hotel_1" st1 = (Ok (Some rep), st2) /\
    calls st2 = calls st1 /\ world st2 = world st1.
Proof.
  destruct (fake_batch "hotel_1" (init 0)) as [[[rep|]|e] st1] eqn:Hrun;
    [|vm_compute in Hrun; discriminate|vm_compute in Hrun; discriminate].
  destruct (batch_repeat_from_store Sample.fake_provider Sample.HOTEL_DATA
              Sample.REVIEWS_DATASET Sample.ANOMALOUS_REVIEWS
              Sample.SIMILARITY_THRESHOLD "hotel_1" Sample.hotel_1 (init 0)
              rep st1 eq_refl) as (st2 & H2 & Hcalls & Hworld).
  - apply NoDup_nil_2.
  - vm_compute. lia.
  - exact Hrun.
  - now exists rep, st1, st2.
Defined.

Lemma needs_check_iff_below_threshold_witness :
  (exists rep st' h hotel_embedding tr,
     fake_batch "hotel_1" (init 0) = (Ok (Some rep), st') /\
     threshold rep = Sample.SIMILARITY_THRESHOLD /\
     fake_serve (sample_texts "hotel_1" h) (init 0)
       = ((analyze_hotel_text h, Ok hotel_embedding) :: tr, st') /\
     Forall2 (fun r p =>
                scored hotel_embedding Sample.SIMILARITY_THRESHOLD r p /\
                flag_agrees (similarity r) Sample.SIMILARITY_THRESHOLD
                  (needs_check r))
       (normal_reviews rep ++ anomalous_reviews rep) tr) /\
  (exists res st' hotel_embedding review_embedding,
     custom_review_payload Sample.fake_provider Sample.SIMILARITY_THRESHOLD
       Sample.hotel_2 "Wi-Fi" (init 0) = (Ok res, st') /\
     c_threshold res = Sample.SIMILARITY_THRESHOLD /\
     Similarity.cosine_similarity hotel_embedding review_embedding
       = Ok (c_similarity res) /\
     flag_agrees (c_similarity res) Sample.SIMILARITY_THRESHOLD
       (c_needs_check res)).
Proof.
  split.
  - destruct (fake_batch "hotel_1" (init 0)) as [[[rep|]|e] st'] eqn:Hrun;
      [|vm_compute in Hrun; discriminate|vm_compute in Hrun; discriminate].
    destruct (proj1 (needs_check_iff_below_threshold Sample.fake_provider
                       Sample.HOTEL_DATA Sample.REVIEWS_DATASET
                       Sample.ANOMALOUS_REVIEWS Sample.SIMILARITY_THRESHOLD)
                "hotel_1" (init 0) rep st' Hrun)
      as (Hthr & h & he & tr & _ & Hserve & Hall).
    now exists rep, st', h, he, tr.
  - destruct (custom_review_payload Sample.fake_provider
                Sample.SIMILARITY_THRESHOLD Sample.hotel_2 "Wi-Fi" (init 0))
      as [[res|e] st'] eqn:Hrun; [|vm_compute in Hrun; discriminate].
    destruct (proj2 (needs_check_iff_below_threshold Sample.fake_provider
                       Sample.HOTEL_DATA Sample.REVIEWS_DATASET
                       Sample.ANOMALOUS_REVIEWS Sample.SIMILARITY_THRESHOLD)
                Sample.hotel_2 "Wi-Fi"%string (init 0) res st' Hrun)
      as (Hthr & _ & he & re & _ & Hsim & Hflag).
    now exists res, st', he, re.
Defined.

Lemma custom_review_agrees_with_report_witness :
  exists rep st1 r st2,
    fake_batch "hotel_1" (init 0) = (Ok (Some rep), st1) /\
    anomalous_reviews rep !! 0 = Some r /\
    custom_review_payload Sample.fake_provider Sample.SIMILARITY_THRESHOLD
      Sample.hotel_1 (review r) st1 =
      (Ok {| c_hotel := Sample.hotel_1; c_review := review r;
             c_similarity := similarity r;
             c_needs_check := needs_check r;
             c_threshold := Sample.SIMILARITY_THRESHOLD |}, st2) /\
    fake_custom (Some "hotel_1") (Some (review r)) st1 =
      (Error500 TypeError, st2) /\
    calls st2 = calls st1.
Proof.
  destruct (fake_batch "hotel_1" (init 0)) as [[[rep|]|e] st1] eqn:Hrun;
    [|vm_compute in Hrun; discriminate|vm_compute in Hrun; discriminate].
  destruct (anomalous_reviews rep !! 0) as [r|] eqn:Hr.
  2:{ exfalso. vm_compute in Hrun. injection Hrun as <- _.
      vm_compute in Hr. discriminate. }
  destruct (custom_review_agrees_with_report Sample.fake_provider
              Sample.HOTEL_DATA Sample.REVIEWS_DATASET Sample.ANOMALOUS_REVIEWS
              Sample.SIMILARITY_THRESHOLD "hotel_1" Sample.hotel_1 (init 0)
              rep st1 r eq_refl) as (st2 & H2 & H3 & Hcalls).
  - apply NoDup_nil_2.
  - vm_compute. lia.
  - exact Hrun.
  - apply elem_of_app. right. eapply list_elem_of_lookup_2. exact Hr.
  - discriminate.
  - vm_compute in Hrun. injection Hrun as <- _.
    vm_compute in Hr. injection Hr as <-. discriminate.
  - now exists rep, st1, r, st2.
Defined.

Lemma custom_review_never_200_witness :
  exists st',
    custom_review_route Sample.fake_provider Sample.HOTEL_DATA
      Sample.SIMILARITY_THRESHOLD refuse_value
      (GetJsonReturns
         (Http.JObj [("hotel_id"%string, Http.JStr "hotel_2");
                     ("review_text"%string, Http.JStr "Wi-Fi")]))
      (init 0) = (Error500 TypeError, st') /\
    fake_custom (Some "hotel_2") (Some "Wi-Fi") (init 0)
      = (Error500 TypeError, st').
Proof.
  destruct (custom_review_payload Sample.fake_provider
              Sample.SIMILARITY_THRESHOLD Sample.hotel_2 "Wi-Fi" (init 0))
    as [[res|e] st'] eqn:Hrun; [|vm_compute in Hrun; discriminate].
  exists st'.
  apply (proj2 (proj2 (custom_review_never_200 Sample.fake_provider
                         Sample.HOTEL_DATA Sample.SIMILARITY_THRESHOLD
                         refuse_value))
           [("hotel_id"%string, Http.JStr "hotel_2");
            ("review_text"%string, Http.JStr "Wi-Fi")]
           "hotel_2"%string "Wi-Fi"%string Sample.hotel_2 (init 0) res st');
    [reflexivity|reflexivity|discriminate|discriminate|reflexivity|exact Hrun].
Defined.

(** The sample hotels have reviews: the batch route answers 500 for them.
    With no review registered it answers 200. *)
Example analyze_route_sample :
  (analyze Sample.fake_provider Sample.HOTEL_DATA Sample.REVIEWS_DATASET
     Sample.ANOMALOUS_REVIEWS Sample.SIMILARITY_THRESHOLD "hotel_1" (init 0)).1
  = Error500 TypeError /\
  status_of (analyze Sample.fake_provider Sample.HOTEL_DATA ∅ ∅
               Sample.SIMILARITY_THRESHOLD "hotel_1" (init 0)).1 = 200%Z.
Proof. split; vm_compute; reflexivity. Qed.

(** Requests of the custom-review route that are not an object with two
    texts: a hotel id that is zero, a hotel id that is a number, a hotel id
    that is a list, a body that is a list, a body that is not JSON. *)
Example custom_review_route_samples :
  let route := custom_review_route Sample.fake_provider Sample.HOTEL_DATA
                 Sample.SIMILARITY_THRESHOLD refuse_value in
  route (GetJsonReturns
           (Http.JObj [("hotel_id"%string, Http.JInt 0);
                       ("review_text"%string, Http.JStr "Nice")])) (init 0)
  = (Error400 "hotel_id and review_text are required", init 0) /\
  route (GetJsonReturns
           (Http.JObj [("hotel_id"%string, Http.JInt 7);
                       ("review_text"%string, Http.JStr "Nice")])) (init 0)
  = (Error404 "Hotel not found", init 0) /\
  route (GetJsonReturns
           (Http.JObj [("hotel_id"%string, Http.JArr [Http.JStr "hotel_1"]);
                       ("review_text"%string, Http.JStr "Nice")])) (init 0)
  = (Error500 TypeError, init 0) /\
  route (GetJsonReturns (Http.JArr [])) (init 0)
  = (Error500 AttributeError, init 0) /\
  route (GetJsonRaises (HTTPException 415)) (init 0)
  = (Error500 (HTTPException 415), init 0).
Proof. repeat split. Qed.

Lemma custom_review_fail_fast_witness :
  custom_review Sample.down_provider Sample.HOTEL_DATA
    Sample.SIMILARITY_THRESHOLD (Some "hotel_2") (Some "Wi-Fi") (init 0)
  = (Error500 (ProviderError "connection refused"),
     (get_cached_embedding Sample.down_provider
        (analyze_hotel_text Sample.hotel_2) (init 0)).2).
Proof.
  apply (proj1 (custom_review_fail_fast Sample.down_provider Sample.HOTEL_DATA
                  Sample.SIMILARITY_THRESHOLD "hotel_2" "Wi-Fi" Sample.hotel_2
                  (init 0) ltac:(discriminate) ltac:(discriminate) eq_refl)).
  reflexivity.
Defined.

Lemma get_embedding_success_witness :
  Http.get_embedding SampleHttp.post_ok "https://api.openai.com/v1" "key"
    "text-embedding-ada-002" "Wi-Fi" 0
  = (Http.Return (Http.JArr [Http.JFloat 0.5%float; Http.JFloat 1%float]), 1).
Proof.
  apply (proj2 (get_embedding_success SampleHttp.post_ok
                  "https://api.openai.com/v1" "key" "text-embedding-ada-002"
                  "Wi-Fi" 0
                  (Http.JArr [Http.JFloat 0.5%float; Http.JFloat 1%float]) 1)).
  eexists _, _, _, _. split; [reflexivity|]. split; [simpl; lia|].
  split; [reflexivity|]. split; reflexivity.
Defined.

Lemma get_embedding_failure_witness :
  exists response,
    SampleHttp.post_unavailable
      (Http.embedding_request "https://api.openai.com/v1" "key"
         "text-embedding-ada-002" "Wi-Fi") 0 = (Http.Return response, 1) /\
    Http.status_code response = 503%Z.
Proof.
  destruct (get_embedding_failure SampleHttp.post_unavailable
              "https://api.openai.com/v1" "key" "text-embedding-ada-002"
              "Wi-Fi" 0 (Http.HTTPError 503) 1 eq_refl)
    as [Hpost | (response & Hpost & Hcase)]; [discriminate|].
  exists response. split; [exact Hpost|].
  now injection Hpost as <-.
Defined.

End SampleExtras.

(** ** Further properties of the entity text *)

Section EntityTextExtras.

Lemma string_app_assoc (s1 s2 s3 : string) :
  (s1 +:+ s2) +:+ s3 = s1 +:+ s2 +:+ s3.
Proof.
  induction s1 as [|c s1 IH]; [reflexivity|].
  change (String c ((s1 +:+ s2) +:+ s3) = String c (s1 +:+ s2 +:+ s3)).
  f_equal. exact IH.
Qed.

Lemma string_app_nil_r (s : string) : s +:+ "" = s.
Proof.
  induction s as [|c s IH]; [reflexivity|].
  change (String c (s +:+ "") = String c s). f_equal. exact IH.
Qed.

Lemma join_mentions (sep : string) (l : list string) (f : string) :
  f ∈ l -> exists pre post, join sep l = pre +:+ f +:+ post.
Proof.
  induction l as [|x rest IH]; [intros H; now apply elem_of_nil in H|].
  rewrite elem_of_cons. intros [->|Hin].
  - destruct rest as [|y rest].
    + exists "", "". change (x = x +:+ ""). now rewrite string_app_nil_r.
    + now exists "", (sep +:+ join sep (y :: rest)).
  - destruct rest as [|y rest]; [now apply elem_of_nil in Hin|].
    destruct (IH Hin) as (pre & post & Heq).
    exists (x +:+ sep +:+ pre), post.
    change (join sep (x :: y :: rest)) with (x +:+ sep +:+ join sep (y :: rest)).
    now rewrite Heq, !string_app_assoc.
Qed.

(** The text built for a hotel begins with its name and mentions its
    description and each of its features. *)
Theorem hotel_text_mentions (h : Hotel) :
  (exists post, analyze_hotel_text h = name h +:+ post) /\
  (exists pre post, analyze_hotel_text h = pre +:+ description h +:+ post) /\
  (forall f, f ∈ features h ->
     exists pre post, analyze_hotel_text h = pre +:+ f +:+ post).
Proof.
  unfold analyze_hotel_text. split; [eauto|]. split.
  - exists (name h +:+ ". "). eexists. now rewrite !string_app_assoc.
  - intros f Hin.
    destruct (join_mentions ", " (features h) f Hin) as (pre & post & ->).
    exists (name h +:+ ". " +:+ description h +:+ " Особенности: " +:+ pre), post.
    now rewrite !string_app_assoc.
Qed.

End EntityTextExtras.
